(** * Account backend: signup, login and the diagnostic probe of [main.py]

    A shallow embedding of the three request handlers of [src/main.py]
    ([test_database], [signup], [login]) together with the parts of the
    process they touch: the module-level database handle [db], the process
    environment, the password context and the "account" collection.

    Handlers are written in a small state-and-exception monad so that the
    order of effects (database reads and writes, password hashing) is the
    order of the Python statements. *)

From Stdlib Require Import ZArith NArith Ascii String List Bool Lia.
From stdpp Require Import base option list gmap strings fin_maps.

Local Open Scope string_scope.
Local Open Scope Z_scope.

(** ** Python strings

    A Python [str] is a sequence of Unicode characters.  It is carried here
    by its UTF-8 encoding, a [string] of bytes; a character is the byte
    sequence of one code point, and [chars] cuts a string into its
    characters.  The string methods the handlers call work on characters:
    [strip] removes the characters [str.isspace] accepts, [s[:n]] keeps
    the first n characters, [lower] maps every character to lower case. *)

Module PyStr.

Definition code (b : ascii) : nat := nat_of_ascii b.

(** A continuation byte of UTF-8: 10xxxxxx. *)
Definition is_continuation (b : ascii) : bool :=
  (128 <=? code b)%nat && (code b <=? 191)%nat.

Definition starts_with_continuation (c : string) : bool :=
  match c with
  | EmptyString => false
  | String b _ => is_continuation b
  end.

(** The characters of a string: every byte that is not a continuation
    byte opens a character, and the continuation bytes behind it belong to
    it. *)
Fixpoint chars (s : string) : list string :=
  match s with
  | EmptyString => []
  | String b s' =>
      match chars s' with
      | [] => [String b EmptyString]
      | c :: cs =>
          if starts_with_continuation c then String b c :: cs
          else String b EmptyString :: c :: cs
      end
  end.

(** ["".join(cs)] *)
Definition join (cs : list string) : string :=
  fold_right String.append EmptyString cs.

Definition byte (n : N) : ascii := ascii_of_N n.

(** The UTF-8 encoding of a code point. *)
Definition utf8 (cp : N) : string :=
  (if cp <? 128 then String (byte cp) EmptyString
   else if cp <? 2048 then
     String (byte (192 + cp / 64))
       (String (byte (128 + cp mod 64)) EmptyString)
   else if cp <? 65536 then
     String (byte (224 + cp / 4096))
       (String (byte (128 + (cp / 64) mod 64))
          (String (byte (128 + cp mod 64)) EmptyString))
   else
     String (byte (240 + cp / 262144))
       (String (byte (128 + (cp / 4096) mod 64))
          (String (byte (128 + (cp / 64) mod 64))
             (String (byte (128 + cp mod 64)) EmptyString))))%N.

(** The code points [str.isspace] accepts: general category Zs, or
    bidirectional class WS, B or S.  U+0009..U+000D, U+001C..U+001F, the
    space, NEL, the no-break space, the Ogham space mark, U+2000..U+200A,
    the line and paragraph separators, the narrow no-break space, the
    medium mathematical space and the ideographic space. *)
Definition whitespace : list N :=
  [9; 10; 11; 12; 13; 28; 29; 30; 31; 32; 133; 160; 5760;
   8192; 8193; 8194; 8195; 8196; 8197; 8198; 8199; 8200; 8201; 8202;
   8232; 8233; 8239; 8287; 12288]%N.

(** [c.isspace()] for one character. *)
Definition isspace (c : string) : bool :=
  existsb (fun cp => String.eqb c (utf8 cp)) whitespace.

Fixpoint lstrip_chars (cs : list string) : list string :=
  match cs with
  | [] => []
  | c :: cs' => if isspace c then lstrip_chars cs' else cs
  end.

Fixpoint rstrip_chars (cs : list string) : list string :=
  match cs with
  | [] => []
  | c :: cs' =>
      match rstrip_chars cs' with
      | [] => if isspace c then [] else [c]
      | r => c :: r
      end
  end.

(** [s.strip()]: whitespace characters removed at both ends. *)
Definition strip (s : string) : string :=
  join (rstrip_chars (lstrip_chars (chars s))).

(** [s[:n]]: the first n characters. *)
Definition slice_to (n : nat) (s : string) : string :=
  join (take n (chars s)).

(** Truth value of a string: non-empty. *)
Definition truthy (s : string) : bool :=
  match s with EmptyString => false | _ => true end.

(** The case data of the Unicode character database the interpreter
    ships: the lower-case form of a character outside ASCII, given the
    characters before it (nearest first) and after it, since the form of
    some characters depends on their neighbours. *)
Record CaseData := {
  lower_non_ascii : list string -> string -> list string -> string
}.

Definition isupper (b : ascii) : bool :=
  (65 <=? code b)%nat && (code b <=? 90)%nat.

Definition lower_byte (b : ascii) : ascii :=
  if isupper b then ascii_of_nat (code b + 32) else b.

(** The lower-case form of one character: A..Z become a..z, the other
    ASCII characters stay, the rest is looked up. *)
Definition lower_char (ucd : CaseData) (before : list string) (c : string)
    (after : list string) : string :=
  match c with
  | String b EmptyString =>
      if (code b <? 128)%nat then String (lower_byte b) EmptyString
      else lower_non_ascii ucd before c after
  | _ => lower_non_ascii ucd before c after
  end.

Fixpoint lower_chars (ucd : CaseData) (before cs : list string) : list string :=
  match cs with
  | [] => []
  | c :: after =>
      lower_char ucd before c after :: lower_chars ucd (c :: before) after
  end.

(** [s.lower()] *)
Definition lower (ucd : CaseData) (s : string) : string :=
  join (lower_chars ucd [] (chars s)).

End PyStr.

(** ** Values

    [Scalar] are the field values an account document holds (the Account
    schema has scalar fields only); [Value] adds the one list a handler
    builds, the collection names of [/test]. *)

Definition ObjectId := N.

Inductive Scalar :=
| SNone
| SBool (b : bool)
| SStr (s : string)
| SOid (o : ObjectId).

Inductive Value :=
| Atom (a : Scalar)
| VList (l : list string).

Coercion Atom : Scalar >-> Value.

#[global] Instance Scalar_eq_dec : EqDecision Scalar.
Proof. solve_decision. Defined.

#[global] Instance Value_eq_dec : EqDecision Value.
Proof. solve_decision. Defined.

Definition hex_digit (n : N) : ascii :=
  match String.get (N.to_nat n) "0123456789abcdef" with
  | Some c => c
  | None => "0"%char
  end.

Fixpoint hex_of (digits : nat) (n : N) : string :=
  match digits with
  | O => EmptyString
  | S k => hex_of k (n / 16)%N +:+ String (hex_digit (n mod 16)%N) EmptyString
  end.

(** [str(oid)]: the 24 hexadecimal digits of the 12-byte identifier. *)
Definition str_oid (o : ObjectId) : string := hex_of 24 o.

(** [str(v)] on the scalars. *)
Definition py_str (v : Scalar) : string :=
  match v with
  | SNone => "None"
  | SBool true => "True"
  | SBool false => "False"
  | SStr s => s
  | SOid o => str_oid o
  end.

(** A document of the store and a JSON-bound response are both Python
    dicts with string keys. *)
Abbreviation Doc := (gmap string Scalar).
Abbreviation Dict := (gmap string Value).

(** [d.get(k)] and [d.get(k, default)] *)
Definition get (d : Doc) (k : string) : Scalar := default SNone (d !! k).
Definition get_or (d : Doc) (k : string) (dflt : Scalar) : Scalar :=
  default dflt (d !! k).

(** Truth value of [find_one]'s result: [None] and the empty dict are
    false. *)
Definition doc_truthy (o : option Doc) : bool :=
  match o with
  | None => false
  | Some d => negb (bool_decide (size d = 0%nat))
  end.

Example strip_example : PyStr.strip "  alice " = "alice".
Proof. reflexivity. Qed.

(** ** The document store behind [db]

    What the handlers use of the driver: [db["account"].find_one(query)],
    [db.list_collection_names()], the attribute [db.name], and the insertion
    performed by [create_document]. *)

(** Query documents: [{k: s}] and [{"$or": [q1, ..., qn]}]. *)
#[warnings="-register-all"]
Inductive Filter :=
| FieldEq (k : string) (s : string)
| Or (qs : list Filter).

Fixpoint matches (q : Filter) (d : Doc) : bool :=
  match q with
  | FieldEq k s => bool_decide (d !! k = Some (SStr s))
  | Or qs => existsb (fun q' => matches q' d) qs
  end.

(** An exception other than [HTTPException]: its class and its [str()]. *)
Record PyError := { exc_class : string; exc_str : string }.

(** Outcome of reading an attribute of an object. *)
Inductive Attr :=
| AttrAbsent
| AttrValue (s : string)
| AttrRaises (e : PyError).

(** The database handle.  Collections are kept in the order the server
    lists them, each with its documents in natural order.  A fault, when
    present, is the exception the corresponding driver call raises (a broken
    connection, a refused command). *)
Record Database := {
  name_attr : Attr;
  colls : list (string * list Doc);
  next_oid : ObjectId;
  find_fault : option PyError;
  insert_fault : option PyError;
  list_fault : option PyError
}.

Fixpoint collection (cs : list (string * list Doc)) (coll : string) : list Doc :=
  match cs with
  | [] => []
  | (c, docs) :: cs' => if String.eqb c coll then docs else collection cs' coll
  end.

(** Appending a document; a collection is created by its first insertion. *)
Fixpoint append_doc (cs : list (string * list Doc)) (coll : string) (doc : Doc)
  : list (string * list Doc) :=
  match cs with
  | [] => [(coll, [doc])]
  | (c, docs) :: cs' =>
      if String.eqb c coll then (c, (docs ++ [doc])%list) :: cs'
      else (c, docs) :: append_doc cs' coll doc
  end.

Definition find_first (q : Filter) (docs : list Doc) : option Doc :=
  List.find (matches q) docs.

(** ** Effects *)

Inductive Event :=
| EvFindOne (coll : string) (q : Filter)
| EvInsertOne (coll : string) (doc : Doc)
| EvListCollectionNames
| EvHash (secret : string)
| EvVerify (secret : string) (hash : Scalar).

Definition is_write_event (e : Event) : bool :=
  match e with EvInsertOne _ _ => true | _ => false end.

Definition is_hash_event (e : Event) : bool :=
  match e with EvHash _ => true | _ => false end.

(** The process state a handler runs in: the global [db] (None when the
    connector could not initialise), [os.environ], the salts the system's
    random source will deliver next, and the effects performed so far (most
    recent last). *)
Record World := {
  db : option Database;
  environ : gmap string string;
  urandom : list string;
  trace : list Event
}.

Definition log (ev : Event) (w : World) : World :=
  {| db := db w; environ := environ w; urandom := urandom w;
     trace := (trace w ++ [ev])%list |}.

Definition set_db (d : Database) (w : World) : World :=
  {| db := Some d; environ := environ w; urandom := urandom w;
     trace := trace w |}.

Definition set_urandom (r : list string) (w : World) : World :=
  {| db := db w; environ := environ w; urandom := r; trace := trace w |}.

(** State and exception monad: a computation runs in a state [S] and
    either returns or raises an [E], leaving the state it reached. *)
Definition M (E S A : Type) : Type := S -> (E + A) * S.

Definition ret {E S A} (a : A) : M E S A := fun s => (inr a, s).

Definition raise {E S A} (e : E) : M E S A := fun s => (inl e, s).

Definition bind {E S A B} (m : M E S A) (k : A -> M E S B) : M E S B :=
  fun s =>
    match m s with
    | (inl e, s') => (inl e, s')
    | (inr a, s') => k a s'
    end.

(** [try: body except Exception as e: handler e]; the handler runs in the
    state the body had reached when it raised. *)
Definition try_except {E S A} (body : M E S A) (handler : E -> M E S A)
  : M E S A :=
  fun s =>
    match body s with
    | (inl e, s') => handler e s'
    | r => r
    end.

Definition gets {E S A} (f : S -> A) : M E S A := fun s => (inr (f s), s).

Definition modify {E S} (f : S -> S) : M E S unit := fun s => (inr tt, f s).

(** Exceptions of a callee seen through the caller's exception type. *)
Definition map_exc {E E' S A} (f : E -> E') (m : M E S A) : M E' S A :=
  fun s =>
    match m s with
    | (inl e, s') => (inl (f e), s')
    | (inr a, s') => (inr a, s')
    end.

(** A computation on the world run inside a frame with local variables. *)
Definition in_world {E L A} (m : M E World A) : M E (World * L) A :=
  fun s =>
    match m (fst s) with
    | (r, w') => (r, (w', snd s))
    end.

Declare Scope handler_scope.
Delimit Scope handler_scope with handler.
Notation "x <- m ;; k" := (bind m (fun x => k))
  (at level 100, m at next level, right associativity) : handler_scope.
Notation "m ;; k" := (bind m (fun _ => k))
  (at level 100, right associativity) : handler_scope.

(** *** Driver calls *)

Definition not_subscriptable : PyError :=
  {| exc_class := "TypeError";
     exc_str := "'NoneType' object is not subscriptable" |}.

Definition no_attribute : PyError :=
  {| exc_class := "AttributeError";
     exc_str := "'NoneType' object has no attribute 'list_collection_names'" |}.

(** [db[coll].find_one(q)]: the first matching document, or None. *)
Definition find_one (coll : string) (q : Filter) : M PyError World (option Doc) :=
  fun w =>
    match db w with
    | None => (inl not_subscriptable, w)
    | Some d =>
        let w' := log (EvFindOne coll q) w in
        match find_fault d with
        | Some e => (inl e, w')
        | None => (inr (find_first q (collection (colls d) coll)), w')
        end
    end.

(** [db.list_collection_names()] *)
Definition list_collection_names : M PyError World (list string) :=
  fun w =>
    match db w with
    | None => (inl no_attribute, w)
    | Some d =>
        let w' := log EvListCollectionNames w in
        match list_fault d with
        | Some e => (inl e, w')
        | None => (inr (map fst (colls d)), w')
        end
    end.

(** [os.getenv(k)] *)
Definition getenv (k : string) : M PyError World (option string) :=
  gets (fun w => environ w !! k).

Definition opt_truthy (o : option string) : bool :=
  match o with
  | None => false
  | Some s => PyStr.truthy s
  end.

Definition is_attribute_error (e : PyError) : bool :=
  String.eqb (exc_class e) "AttributeError".

(** [hasattr(db, 'name')]: an AttributeError raised by the lookup means the
    attribute is absent; any other exception passes through. *)
Definition hasattr_name (d : Database) : M PyError World bool :=
  match name_attr d with
  | AttrAbsent => ret false
  | AttrValue _ => ret true
  | AttrRaises e => if is_attribute_error e then ret false else raise e
  end.

Definition getattr_name (d : Database) : M PyError World string :=
  match name_attr d with
  | AttrAbsent =>
      raise {| exc_class := "AttributeError";
               exc_str := "'Database' object has no attribute 'name'" |}
  | AttrValue s => ret s
  | AttrRaises e => raise e
  end.

(** ** The diagnostic probe: [GET /test] *)

(** [response[k] = v] on the handler's local dict. *)
Definition setitem {E} (k : string) (v : Value) : M E (World * Dict) unit :=
  modify (fun s => (fst s, <[k := v]> (snd s))).

Definition initial_response : Dict :=
  <["backend" := Atom (SStr "✅ Running")]>
  (<["database" := Atom (SStr "❌ Not Available")]>
  (<["database_url" := Atom SNone]>
  (<["database_name" := Atom SNone]>
  (<["connection_status" := Atom (SStr "Not Connected")]>
  (<["collections" := VList []]> ∅))))).

Definition flag (set : bool) : string :=
  if set then "✅ Set" else "❌ Not Set".

Definition test_database_body : M PyError (World * Dict) Dict :=
  (try_except
     (d <- in_world (gets db) ;;
      match d with
      | Some h =>
          setitem "database" (SStr "✅ Available") ;;
          setitem "database_url" (SStr "✅ Configured") ;;
          has <- in_world (hasattr_name h) ;;
          nm <- (if has : bool then in_world (getattr_name h)
                 else ret "✅ Connected") ;;
          setitem "database_name" (SStr nm) ;;
          setitem "connection_status" (SStr "Connected") ;;
          try_except
            (collections <- in_world list_collection_names ;;
             setitem "collections" (VList (take 10 collections)) ;;
             setitem "database" (SStr "✅ Connected & Working"))
            (fun e =>
               setitem "database"
                 (SStr ("⚠️  Connected but Error: "
                        +:+ PyStr.slice_to 50 (exc_str e))))
      | None =>
          setitem "database" (SStr "⚠️  Available but not initialized")
      end)
     (fun e =>
        setitem "database"
          (SStr ("❌ Error: " +:+ PyStr.slice_to 50 (exc_str e)))) ;;
   url <- in_world (getenv "DATABASE_URL") ;;
   setitem "database_url" (SStr (flag (opt_truthy url))) ;;
   nm <- in_world (getenv "DATABASE_NAME") ;;
   setitem "database_name" (SStr (flag (opt_truthy nm))) ;;
   gets snd)%handler.

(** The handler: [response] is a fresh local dict on every call. *)
Definition test_database : M PyError World Dict :=
  fun w =>
    match test_database_body (w, initial_response) with
    | (r, s') => (r, fst s')
    end.

(** ** The auth endpoints *)

(** What a handler raises: an [HTTPException], or any other exception,
    which it lets through. *)
Inductive Exn :=
| HTTPException (status_code : Z) (detail : string)
| Unhandled (e : PyError).

(** The status line the framework answers with: 200 for a returned value
    (no route sets another status code), the exception's own status for an
    [HTTPException], 500 for anything else. *)
Definition http_status {A} (r : Exn + A) : Z :=
  match r with
  | inr _ => 200
  | inl (HTTPException c _) => c
  | inl (Unhandled _) => 500
  end.

(** passlib's [CryptContext]: hashing draws a salt and may reject the
    secret; verification may reject the stored hash. *)
Record CryptContext := {
  hash_with : string -> string -> PyError + string;
  verify_with : string -> Scalar -> PyError + bool
}.

(** Request bodies as the handlers receive them, that is, after the
    framework has validated them against the payload classes. *)
Module SignupPayload.
Record t := {
  name : string;
  email : string;
  password : string;
  avatar_url : option string
}.
End SignupPayload.

Module LoginPayload.
Record t := { name : string; password : string }.
End LoginPayload.

(** Modelled from the spec: the [Account] schema of [schemas.py], which is
    not under src/.  Section 3 gives its fields: name, email, password_hash,
    an optional avatar_url and the onboarded flag. *)
Module Account.
Record t := {
  name : string;
  email : string;
  password_hash : string;
  avatar_url : option string;
  onboarded : bool
}.
End Account.

Definition of_optional (o : option string) : Scalar :=
  match o with
  | None => SNone
  | Some s => SStr s
  end.

(** Modelled from the spec: the serialisation [create_document] applies to
    a record ("serializes the given record to the store's native document
    representation", section 4.1): one field per field of the schema. *)
Definition model_dump (a : Account.t) : Doc :=
  <["name" := SStr (Account.name a)]>
  (<["email" := SStr (Account.email a)]>
  (<["password_hash" := SStr (Account.password_hash a)]>
  (<["avatar_url" := of_optional (Account.avatar_url a)]>
  (<["onboarded" := SBool (Account.onboarded a)]> ∅)))).

Definition insert_into (d : Database) (coll : string) (doc : Doc) : Database :=
  {| name_attr := name_attr d;
     colls := append_doc (colls d) coll doc;
     next_oid := (next_oid d + 1)%N;
     find_fault := find_fault d;
     insert_fault := insert_fault d;
     list_fault := list_fault d |}.

(** Modelled from the spec: [create_document] of [database.py], which is
    not under src/.  Section 4.1 (insert_document): it serialises the record,
    inserts it, and returns the store-assigned identifier as a string; it
    fails with a DatabaseError if the store is unavailable or the write
    fails.  The spec fixes no message for the unavailable store. *)
Definition create_document (coll : string) (data : Account.t)
  : M PyError World string :=
  fun w =>
    match db w with
    | None => (inl {| exc_class := "DatabaseError"; exc_str := "" |}, w)
    | Some d =>
        let doc := <["_id" := SOid (next_oid d)]> (model_dump data) in
        let w' := log (EvInsertOne coll doc) w in
        match insert_fault d with
        | Some e =>
            (inl {| exc_class := "DatabaseError"; exc_str := exc_str e |}, w')
        | None =>
            (inr (str_oid (next_oid d)), set_db (insert_into d coll doc) w')
        end
    end.

Section Auth.

(** The case data of the interpreter's Unicode database, which
    [str.lower] consults. *)
Variable ucd : PyStr.CaseData.

(** [pwd_context = CryptContext(schemes=["bcrypt"], deprecated="auto")] *)
Variable pwd_context : CryptContext.

(** [pwd_context.hash(secret)] *)
Definition hash (secret : string) : M PyError World string :=
  fun w =>
    let w' := set_urandom (tl (urandom w)) (log (EvHash secret) w) in
    match hash_with pwd_context (hd "" (urandom w)) secret with
    | inl e => (inl e, w')
    | inr h => (inr h, w')
    end.

(** [pwd_context.verify(secret, hash)] *)
Definition verify (secret : string) (h : Scalar) : M PyError World bool :=
  fun w =>
    let w' := log (EvVerify secret h) w in
    match verify_with pwd_context secret h with
    | inl e => (inl e, w')
    | inr b => (inr b, w')
    end.

Definition profile (id name email avatar_url onboarded : Scalar) : Dict :=
  <["id" := Atom id]>
  (<["name" := Atom name]>
  (<["email" := Atom email]>
  (<["avatar_url" := Atom avatar_url]>
  (<["onboarded" := Atom onboarded]> ∅)))).

(** [POST /auth/signup] *)
Definition signup (payload : SignupPayload.t) : M Exn World Dict :=
  (d <- gets db ;;
   (if d is None
    then raise (HTTPException 500 "Database not available")
    else ret tt) ;;
   let name := PyStr.strip (SignupPayload.name payload) in
   let email := PyStr.strip (PyStr.lower ucd (SignupPayload.email payload)) in
   existing <- map_exc Unhandled
     (find_one "account" (Or [FieldEq "email" email; FieldEq "name" name])) ;;
   (if doc_truthy existing
    then raise (HTTPException 400
                  "Account with this email or name already exists")
    else ret tt) ;;
   password_hash <- map_exc Unhandled (hash (SignupPayload.password payload)) ;;
   let account :=
     {| Account.name := name;
        Account.email := email;
        Account.password_hash := password_hash;
        Account.avatar_url := SignupPayload.avatar_url payload;
        Account.onboarded := false |} in
   inserted_id <- map_exc Unhandled (create_document "account" account) ;;
   ret (profile (SStr inserted_id)
                (SStr (Account.name account))
                (SStr (Account.email account))
                (of_optional (Account.avatar_url account))
                (SBool (Account.onboarded account))))%handler.

(** [POST /auth/login] *)
Definition login (payload : LoginPayload.t) : M Exn World Dict :=
  (d <- gets db ;;
   (if d is None
    then raise (HTTPException 500 "Database not available")
    else ret tt) ;;
   doc <- map_exc Unhandled
     (find_one "account"
        (FieldEq "name" (PyStr.strip (LoginPayload.name payload)))) ;;
   (if negb (doc_truthy doc)
    then raise (HTTPException 401 "Invalid name or password")
    else ret tt) ;;
   (* past the guard [doc] is a document *)
   let doc := default ∅ doc in
   ok <- map_exc Unhandled
     (verify (LoginPayload.password payload)
             (get_or doc "password_hash" (SStr ""))) ;;
   (if negb ok
    then raise (HTTPException 401 "Invalid name or password")
    else ret tt) ;;
   ret (profile (SStr (py_str (get doc "_id")))
                (get doc "name")
                (get doc "email")
                (get doc "avatar_url")
                (get_or doc "onboarded" (SBool false))))%handler.

End Auth.

(** ** Names for the parts of the handlers the statements speak about *)

(** The uniqueness query of [signup]. *)
Definition taken (email name : string) : Filter :=
  Or [FieldEq "email" email; FieldEq "name" name].

Definition signup_document (ucd : PyStr.CaseData) (d : Database)
    (salt : string)
    (payload : SignupPayload.t) (h : string) : Doc :=
  <["_id" := SOid (next_oid d)]>
    (model_dump
       {| Account.name := PyStr.strip (SignupPayload.name payload);
          Account.email :=
            PyStr.strip (PyStr.lower ucd (SignupPayload.email payload));
          Account.password_hash := h;
          Account.avatar_url := SignupPayload.avatar_url payload;
          Account.onboarded := false |}).

Definition signup_query (ucd : PyStr.CaseData) (payload : SignupPayload.t)
  : Filter :=
  taken (PyStr.strip (PyStr.lower ucd (SignupPayload.email payload)))
        (PyStr.strip (SignupPayload.name payload)).

Definition signup_response (ucd : PyStr.CaseData) (d : Database)
    (payload : SignupPayload.t) : Dict :=
  profile (SStr (str_oid (next_oid d)))
          (SStr (PyStr.strip (SignupPayload.name payload)))
          (SStr (PyStr.strip (PyStr.lower ucd (SignupPayload.email payload))))
          (of_optional (SignupPayload.avatar_url payload))
          (SBool false).

Definition login_query (payload : LoginPayload.t) : Filter :=
  FieldEq "name" (PyStr.strip (LoginPayload.name payload)).

Definition login_response (doc : Doc) : Dict :=
  profile (SStr (py_str (get doc "_id")))
          (get doc "name") (get doc "email") (get doc "avatar_url")
          (get_or doc "onboarded" (SBool false)).

Definition invalid_credentials : Exn :=
  HTTPException 401 "Invalid name or password".

(** The two assignments that close [test_database]. *)
Definition env_flags (w : World) (response : Dict) : Dict :=
  <["database_name" :=
      Atom (SStr (flag (opt_truthy (environ w !! "DATABASE_NAME"))))]>
  (<["database_url" :=
      Atom (SStr (flag (opt_truthy (environ w !! "DATABASE_URL"))))]> response).

(** The response as it stands when the handle exists and [db.name] has
    been read. *)
Definition connected (nm : string) : Dict :=
  <["connection_status" := Atom (SStr "Connected")]>
  (<["database_name" := Atom (SStr nm)]>
  (<["database_url" := Atom (SStr "✅ Configured")]>
  (<["database" := Atom (SStr "✅ Available")]> initial_response))).

Definition listed (d : Database) (w : World) (nm : string) : (PyError + Dict) * World :=
  match list_fault d with
  | Some e =>
      (inr (env_flags w
              (<["database" :=
                   Atom (SStr ("⚠️  Connected but Error: "
                               +:+ PyStr.slice_to 50 (exc_str e)))]>
                 (connected nm))),
       log EvListCollectionNames w)
  | None =>
      (inr (env_flags w
              (<["database" := Atom (SStr "✅ Connected & Working")]>
              (<["collections" := VList (take 10 (map fst (colls d)))]>
                 (connected nm)))),
       log EvListCollectionNames w)
  end.

(** The route [GET /test] as the framework sees it. *)
Definition get_test : M Exn World Dict := map_exc Unhandled test_database.

Definition probe_keys : gset string :=
  {[ "backend"; "database"; "database_url"; "database_name";
     "connection_status"; "collections" ]}.

Definition profile_keys : gset string :=
  {[ "id"; "name"; "email"; "avatar_url"; "onboarded" ]}.

Definition is_str (o : option Value) : Prop :=
  exists s, o = Some (Atom (SStr s)).

(** ** Names for further statements about the handlers *)

Fixpoint all_bytes (p : ascii -> bool) (s : string) : bool :=
  match s with
  | EmptyString => true
  | String b s' => p b && all_bytes p s'
  end.

(** One character: a byte followed by continuation bytes only. *)
Definition is_char (c : string) : bool :=
  match c with
  | EmptyString => false
  | String _ t => all_bytes PyStr.is_continuation t
  end.

(** A list of characters as [chars] produces them: only the first may open
    with a continuation byte. *)
Definition chunked (cs : list string) : Prop :=
  Forall (fun c => is_char c = true) cs /\
  Forall (fun c => PyStr.starts_with_continuation c = false) (tail cs).

(** A string made of whitespace characters only (the empty string
    included). *)
Definition all_space (s : string) : bool :=
  forallb PyStr.isspace (PyStr.chars s).

(** The first and the last character of [t], if any, are not whitespace. *)
Definition no_outer_space (t : string) : bool :=
  match PyStr.chars t with
  | [] => true
  | c :: cs => negb (PyStr.isspace c) && negb (PyStr.isspace (List.last cs c))
  end.

(** What "[t] is [s] trimmed" says: [s] is [t] between two runs of
    whitespace, and [t] neither starts nor ends with whitespace. *)
Definition trimmed_of (t s : string) : Prop :=
  exists pre post,
    s = pre +:+ t +:+ post /\
    all_space pre = true /\ all_space post = true /\
    no_outer_space t = true.

(** Text of ASCII characters only. *)
Definition is_ascii (s : string) : bool :=
  all_bytes (fun b => (PyStr.code b <? 128)%nat) s.

(** What "lower-cased" says on ASCII text: A..Z replaced by a..z, nothing
    else changed. *)
Fixpoint ascii_lowercase (s : string) : string :=
  match s with
  | EmptyString => EmptyString
  | String b s' =>
      String (if (65 <=? PyStr.code b)%nat && (PyStr.code b <=? 90)%nat
              then ascii_of_nat (PyStr.code b + 32) else b)
             (ascii_lowercase s')
  end.

(** The value the connection branch assigns to database_name: [db.name]
    when [hasattr] finds it, the fixed mark otherwise. *)
Definition name_shown (d : Database) : string :=
  match name_attr d with
  | AttrValue nm => nm
  | _ => "✅ Connected"
  end.

(** The exception that reading [db.name] lets through [hasattr], if any. *)
Definition name_escapes (d : Database) : option PyError :=
  match name_attr d with
  | AttrRaises e => if is_attribute_error e then None else Some e
  | _ => None
  end.

(** The signup request a client would send had it normalised the name and
    the email itself. *)
Definition normalised (ucd : PyStr.CaseData) (sp : SignupPayload.t)
  : SignupPayload.t :=
  {| SignupPayload.name := PyStr.strip (SignupPayload.name sp);
     SignupPayload.email := PyStr.strip (PyStr.lower ucd (SignupPayload.email sp));
     SignupPayload.password := SignupPayload.password sp;
     SignupPayload.avatar_url := SignupPayload.avatar_url sp |}.

(** The login request with the name already trimmed. *)
Definition trimmed (lp : LoginPayload.t) : LoginPayload.t :=
  {| LoginPayload.name := PyStr.strip (LoginPayload.name lp);
     LoginPayload.password := LoginPayload.password lp |}.

(** No two documents of a collection hold the same string in field [k]. *)
Definition field_unique (k : string) (docs : list Doc) : Prop :=
  forall (i j : nat) (d1 d2 : Doc) (s : string),
    docs !! i = Some d1 -> docs !! j = Some d2 ->
    d1 !! k = Some (SStr s) -> d2 !! k = Some (SStr s) -> i = j.

(** The account collection behind a handle, empty without a handle. *)
Definition accounts (w : World) : list Doc :=
  match db w with
  | None => []
  | Some d => collection (colls d) "account"
  end.

(** ** A concrete setting, to run the handlers on *)

Module Demo.

(** Stand-in case data: the capital letters of Latin-1, U+00C0..U+00DE
    without the multiplication sign, go to their small forms 32 code points
    up; every other character outside ASCII is left as it is. *)
Definition ucd : PyStr.CaseData :=
  {| PyStr.lower_non_ascii := fun _ c _ =>
       match c with
       | String b1 (String b2 EmptyString) =>
           if (PyStr.code b1 =? 195)%nat
              && (128 <=? PyStr.code b2)%nat && (PyStr.code b2 <=? 158)%nat
              && negb (PyStr.code b2 =? 151)%nat
           then String b1 (String (ascii_of_nat (PyStr.code b2 + 32)) EmptyString)
           else c
       | _ => c
       end |}.

Definition unknown_hash : PyError :=
  {| exc_class := "UnknownHashError";
     exc_str := "hash could not be identified" |}.

(** A stand-in password scheme: the hash is the secret and the salt
    behind a marker; a stored hash without the marker is not recognised. *)
Definition stored (salt secret : string) : string :=
  "$demo$" +:+ secret +:+ "$" +:+ salt.

Fixpoint starts_with (pre s : string) : bool :=
  match pre with
  | EmptyString => true
  | String a pre' =>
      match s with
      | EmptyString => false
      | String b s' => Ascii.eqb a b && starts_with pre' s'
      end
  end.

Definition context : CryptContext :=
  {| hash_with salt secret := inr (stored salt secret);
     verify_with secret h :=
       match h with
       | SNone => inr false
       | SStr s =>
           if starts_with "$demo$" s
           then inr (starts_with ("$demo$" +:+ secret +:+ "$") s)
           else inl unknown_hash
       | _ => inl {| exc_class := "TypeError"; exc_str := "hash must be str" |}
       end |}.

Definition empty_db : Database :=
  {| name_attr := AttrValue "app";
     colls := [];
     next_oid := 1%N;
     find_fault := None;
     insert_fault := None;
     list_fault := None |}.

Definition world (d : option Database) : World :=
  {| db := d; environ := ∅; urandom := ["ab"; "cd"]; trace := [] |}.

Definition alice : SignupPayload.t :=
  {| SignupPayload.name := "alice";
     SignupPayload.email := "Alice@Example.com ";
     SignupPayload.password := "secret123";
     SignupPayload.avatar_url := None |}.

Definition alice_login : LoginPayload.t :=
  {| LoginPayload.name := "alice"; LoginPayload.password := "secret123" |}.

(** The world after alice signed up in an empty store. *)
Definition registered : World :=
  snd (signup ucd context alice (world (Some empty_db))).

(** Another person, with alice's address in other letters. *)
Definition bob : SignupPayload.t :=
  {| SignupPayload.name := "bob";
     SignupPayload.email := "ALICE@example.com";
     SignupPayload.password := "hunter2";
     SignupPayload.avatar_url := Some "https://example.com/bob.png" |}.

Definition wrong_password : LoginPayload.t :=
  {| LoginPayload.name := "alice"; LoginPayload.password := "guess" |}.

Definition nobody : LoginPayload.t :=
  {| LoginPayload.name := "mallory"; LoginPayload.password := "guess" |}.

(** A store holding one document written without a password hash. *)
Definition legacy_doc : Doc :=
  <["_id" := SOid 7%N]> (<["name" := SStr "carol"]> ∅).

Definition legacy_db : Database :=
  {| name_attr := AttrValue "app";
     colls := [("account", [legacy_doc])];
     next_oid := 8%N;
     find_fault := None;
     insert_fault := None;
     list_fault := None |}.

Definition carol_login : LoginPayload.t :=
  {| LoginPayload.name := "carol"; LoginPayload.password := "pw" |}.

(** A store whose only document has a name and a recognisable hash and
    nothing else. *)
Definition tokened_doc : Doc :=
  <["name" := SStr "carol"]>
    (<["password_hash" := SStr (stored "zz" "pw")]> ∅).

Definition tokened_db : Database :=
  {| name_attr := AttrValue "app";
     colls := [("account", [tokened_doc])];
     next_oid := 1%N;
     find_fault := None;
     insert_fault := None;
     list_fault := None |}.

Definition carol_token : LoginPayload.t :=
  {| LoginPayload.name := " carol "; LoginPayload.password := "pw" |}.

(** A request whose name is whitespace only. *)
Definition blank : SignupPayload.t :=
  {| SignupPayload.name := "   ";
     SignupPayload.email := "nobody@example.com";
     SignupPayload.password := "x";
     SignupPayload.avatar_url := None |}.

(** A handle whose listing is refused by the server. *)
Definition refused : PyError :=
  {| exc_class := "ServerSelectionTimeoutError";
     exc_str :=
       "localhost:27017: [Errno 111] Connection refused (configured timeouts: 30s)" |}.

Definition unreachable_db : Database :=
  {| name_attr := AttrValue "app";
     colls := [];
     next_oid := 1%N;
     find_fault := Some refused;
     insert_fault := Some refused;
     list_fault := Some refused |}.

(** A password context that rejects secrets of fewer than two characters. *)
Definition too_short : PyError :=
  {| exc_class := "ValueError"; exc_str := "secret too short" |}.

Definition strict_context : CryptContext :=
  {| hash_with salt secret :=
       if (String.length secret <? 2)%nat then inl too_short
       else inr (stored salt secret);
     verify_with := verify_with context |}.

(** A request padded with whitespace: two spaces before the name and a
    no-break space behind it, a space behind the address. *)
Definition padded : SignupPayload.t :=
  {| SignupPayload.name := "  Alice Smith" +:+ PyStr.utf8 160;
     SignupPayload.email := "Alice@Example.com ";
     SignupPayload.password := "secret123";
     SignupPayload.avatar_url := None |}.

(** A second person, unknown to the store alice signed up in. *)
Definition dave : SignupPayload.t :=
  {| SignupPayload.name := "dave";
     SignupPayload.email := "dave@example.com";
     SignupPayload.password := "correct horse";
     SignupPayload.avatar_url := None |}.

(** A handle whose [name] lookup raises AttributeError, and one whose
    lookup raises something else. *)
Definition nameless_db : Database :=
  {| name_attr :=
       AttrRaises {| exc_class := "AttributeError";
                     exc_str := "'Database' object has no attribute 'name'" |};
     colls := [("account", []); ("session", [])];
     next_oid := 1%N;
     find_fault := None;
     insert_fault := None;
     list_fault := None |}.

Definition closed : PyError :=
  {| exc_class := "InvalidOperation";
     exc_str := "Cannot use MongoClient after close" |}.

Definition closed_db : Database :=
  {| name_attr := AttrRaises closed;
     colls := [("account", [])];
     next_oid := 1%N;
     find_fault := Some closed;
     insert_fault := Some closed;
     list_fault := Some closed |}.

(** A process started with DATABASE_URL set and DATABASE_NAME set to the
    given value. *)
Definition named_with (nm : string) : World :=
  {| db := None;
     environ := <["DATABASE_URL" := "mongodb://db"]>
                  (<["DATABASE_NAME" := nm]> ∅);
     urandom := []; trace := [] |}.

(** A handle whose listing is refused with a text that is not ASCII. *)
Definition refusee : PyError :=
  {| exc_class := "ServerSelectionTimeoutError";
     exc_str :=
       "Connexion refusée par le serveur localhost:27017 après 30 secondes" |}.

Definition injoignable_db : Database :=
  {| name_attr := AttrValue "app";
     colls := [];
     next_oid := 1%N;
     find_fault := Some refusee;
     insert_fault := Some refusee;
     list_fault := Some refusee |}.

(** A process started with the given value of DATABASE_URL. *)
Definition started_with (url : string) : World :=
  {| db := None; environ := <["DATABASE_URL" := url]> ∅;
     urandom := []; trace := [] |}.

End Demo.


(** * Properties *)

(** ** Normalisation of names and e-mail addresses *)

Module PyStrFacts.
Import PyStr.

Lemma append_nil (t : string) : EmptyString +:+ t = t.
Proof. reflexivity. Qed.

Lemma append_cons b (s t : string) : String b s +:+ t = String b (s +:+ t).
Proof. reflexivity. Qed.

Lemma append_assoc (a b c : string) : (a +:+ b) +:+ c = a +:+ (b +:+ c).
Proof.
  induction a as [|x a IH]; [reflexivity|].
  rewrite !append_cons. now rewrite IH.
Qed.

Lemma append_empty_r (a : string) : a +:+ EmptyString = a.
Proof.
  induction a as [|x a IH]; [reflexivity|]. rewrite append_cons. now rewrite IH.
Qed.

Lemma join_cons c l : join (c :: l) = c +:+ join l.
Proof. reflexivity. Qed.

Lemma join_app l1 l2 : join (l1 ++ l2)%list = join l1 +:+ join l2.
Proof.
  induction l1 as [|c l1 IH]; [reflexivity|].
  rewrite <- app_comm_cons, !join_cons, IH. symmetry. apply append_assoc.
Qed.

Lemma join_chars s : join (chars s) = s.
Proof.
  induction s as [|b s IH]; [reflexivity|]. simpl.
  destruct (chars s) as [|c cs].
  - rewrite join_cons. simpl in IH. now rewrite <- IH.
  - destruct (starts_with_continuation c); rewrite !join_cons in *;
      rewrite ?append_cons, ?append_nil; now rewrite IH.
Qed.

(** The first character of a non-empty string opens with its first byte. *)
Lemma chars_head b s :
  exists t cs, chars (String b s) = String b t :: cs.
Proof.
  simpl. destruct (chars s) as [|c cs]; [eauto|].
  destruct (starts_with_continuation c); eauto.
Qed.

Lemma chars_chunked s : chunked (chars s).
Proof.
  induction s as [|b s [IH1 IH2]]; [split; constructor|].
  simpl. destruct (chars s) as [|c cs] eqn:Hc.
  - split; [repeat constructor | constructor].
  - destruct (starts_with_continuation c) eqn:Hs.
    + inversion IH1 as [|? ? Hic Hics]; subst. split; [|exact IH2].
      constructor; [|exact Hics].
      destruct c as [|b' t]; [discriminate|]. simpl in *.
      now rewrite Hs, Hic.
    + split; [constructor; [reflexivity | exact IH1]|].
      simpl. constructor; assumption.
Qed.

Lemma chunked_app l1 l2 : chunked (l1 ++ l2)%list -> chunked l1 /\ chunked l2.
Proof.
  intros [H1 H2]. apply Forall_app in H1 as [H1a H1b].
  split; split; auto.
  - destruct l1 as [|c l1]; [constructor|]. simpl in *.
    now apply Forall_app in H2 as [H2 _].
  - destruct l1 as [|c l1]; simpl in *.
    + exact H2.
    + apply Forall_app in H2 as [_ H2].
      destruct l2; [constructor|]. now inversion H2.
Qed.

Lemma chars_continuation_run t r l :
  t <> EmptyString -> all_bytes is_continuation t = true ->
  chars r = l -> Forall (fun c => starts_with_continuation c = false) l ->
  chars (t +:+ r) = t :: l.
Proof.
  induction t as [|b t IH]; [congruence|].
  intros _ Hall Hr Hl. simpl in Hall. apply andb_true_iff in Hall as [Hb Ht].
  rewrite append_cons. simpl. destruct t as [|b' t'].
  - rewrite append_nil, Hr. destruct l as [|c l]; [reflexivity|].
    inversion Hl as [|? ? Hc _]; subst. now rewrite Hc.
  - rewrite (IH ltac:(discriminate) Ht Hr Hl). simpl.
    simpl in Ht. apply andb_true_iff in Ht as [Hb' _]. now rewrite Hb'.
Qed.

Lemma chars_cons c r l :
  is_char c = true ->
  chars r = l -> Forall (fun c => starts_with_continuation c = false) l ->
  chars (c +:+ r) = c :: l.
Proof.
  destruct c as [|b t]; [discriminate|]. intros Ht Hr Hl. simpl in Ht.
  rewrite append_cons. simpl. destruct t as [|b' t'].
  - rewrite append_nil, Hr. destruct l as [|c l]; [reflexivity|].
    inversion Hl as [|? ? Hc _]; subst. now rewrite Hc.
  - rewrite (chars_continuation_run (String b' t') r l
               ltac:(discriminate) Ht Hr Hl).
    simpl in Ht. apply andb_true_iff in Ht as [Hb' _]. simpl. now rewrite Hb'.
Qed.

(** Cutting the concatenation of characters gives the characters back. *)
Lemma chars_join l : chunked l -> chars (join l) = l.
Proof.
  induction l as [|c l IH]; [reflexivity|].
  intros [H1 H2]. inversion H1 as [|? ? Hc Hl]; subst. simpl in H2.
  rewrite join_cons.
  apply chars_cons; [exact Hc | | exact H2].
  apply IH. split; [exact Hl|]. destruct l; [constructor|]. now inversion H2.
Qed.

Lemma lstrip_split l :
  exists pre, l = (pre ++ lstrip_chars l)%list /\ forallb isspace pre = true.
Proof.
  induction l as [|c l (pre & Hl & Hpre)]; [exists []; split; reflexivity|].
  simpl. destruct (isspace c) eqn:Hc.
  - exists (c :: pre). simpl. rewrite Hc, Hpre. split; [now f_equal | reflexivity].
  - exists []. split; reflexivity.
Qed.

Lemma lstrip_head l c r : lstrip_chars l = c :: r -> isspace c = false.
Proof.
  induction l as [|c' l IH]; simpl; [discriminate|].
  destruct (isspace c') eqn:Hc; [exact IH|]. now intros [= <- <-].
Qed.

Lemma rstrip_split l :
  exists post, l = (rstrip_chars l ++ post)%list /\ forallb isspace post = true.
Proof.
  induction l as [|c l (post & Hl & Hpost)]; [exists []; split; reflexivity|].
  simpl. destruct (rstrip_chars l) as [|a r] eqn:Hr.
  - simpl in Hl. subst post. destruct (isspace c) eqn:Hc.
    + exists (c :: l). simpl. rewrite Hc, Hpost. split; reflexivity.
    + exists l. split; [reflexivity | exact Hpost].
  - exists post. split; [|exact Hpost]. simpl. f_equal. exact Hl.
Qed.

Lemma last_cons {A} (a d : A) (r : list A) :
  List.last (a :: r) d = List.last r a.
Proof.
  revert a d. induction r as [|b r IH]; intros a d; [reflexivity|].
  change (List.last (a :: b :: r) d) with (List.last (b :: r) d).
  rewrite IH. symmetry. apply IH.
Qed.

Lemma rstrip_last l c cs :
  rstrip_chars l = c :: cs -> isspace (List.last cs c) = false.
Proof.
  revert c cs. induction l as [|c' l IH]; simpl; [discriminate|].
  intros c cs. destruct (rstrip_chars l) as [|a r] eqn:Hr.
  - destruct (isspace c') eqn:Hc; [discriminate|]. now intros [= <- <-].
  - intros [= <- <-]. rewrite last_cons. exact (IH a r eq_refl).
Qed.

Lemma rstrip_keeps_head c l :
  isspace c = false -> exists r, rstrip_chars (c :: l) = c :: r.
Proof.
  intros Hc. simpl. destruct (rstrip_chars l); rewrite ?Hc; eauto.
Qed.

Lemma rstrip_idem l : rstrip_chars (rstrip_chars l) = rstrip_chars l.
Proof.
  induction l as [|c l IH]; [reflexivity|]. simpl.
  destruct (rstrip_chars l) as [|a r] eqn:Hr.
  - destruct (isspace c) eqn:Hc; simpl; [reflexivity | now rewrite Hc].
  - change (rstrip_chars (c :: a :: r)) with
      (match rstrip_chars (a :: r) with
       | [] => if isspace c then [] else [c]
       | x :: y => c :: x :: y
       end).
    now rewrite IH.
Qed.

Lemma lstrip_rstrip_lstrip l :
  lstrip_chars (rstrip_chars (lstrip_chars l)) = rstrip_chars (lstrip_chars l).
Proof.
  destruct (lstrip_chars l) as [|c r] eqn:Hl; [reflexivity|].
  apply lstrip_head in Hl.
  destruct (rstrip_keeps_head c r Hl) as [r' ->]. simpl. now rewrite Hl.
Qed.

Lemma strip_chunked s : chunked (rstrip_chars (lstrip_chars (chars s))).
Proof.
  pose proof (chars_chunked s) as H.
  destruct (lstrip_split (chars s)) as (pre & Hpre & _).
  rewrite Hpre in H. apply chunked_app in H as [_ H].
  destruct (rstrip_split (lstrip_chars (chars s))) as (post & Hpost & _).
  rewrite Hpost in H. now apply chunked_app in H as [H _].
Qed.

(** The characters of the trimmed string. *)
Lemma chars_strip s :
  chars (strip s) = rstrip_chars (lstrip_chars (chars s)).
Proof. apply chars_join, strip_chunked. Qed.

(** Trimming a trimmed string changes nothing. *)
Lemma strip_idem s : strip (strip s) = strip s.
Proof.
  unfold strip at 1. rewrite chars_strip.
  now rewrite lstrip_rstrip_lstrip, rstrip_idem.
Qed.

Lemma lstrip_all_space l : forallb isspace l = true -> lstrip_chars l = [].
Proof.
  induction l as [|c l IH]; simpl; [reflexivity|].
  intros [Hc Hl]%andb_true_iff. rewrite Hc. auto.
Qed.

Lemma strip_all_space s : all_space s = true -> strip s = EmptyString.
Proof. intros H. unfold strip. now rewrite lstrip_all_space. Qed.

(** [strip] does what "trimmed" says. *)
Lemma strip_trimmed s : trimmed_of (strip s) s.
Proof.
  pose proof (chars_chunked s) as Hch.
  destruct (lstrip_split (chars s)) as (pre & Hpre & Hpres).
  destruct (rstrip_split (lstrip_chars (chars s))) as (post & Hpost & Hposts).
  exists (join pre), (join post).
  assert (chars s = (pre ++ rstrip_chars (lstrip_chars (chars s)) ++ post)%list)
    as Hs by (rewrite <- Hpost; exact Hpre).
  rewrite Hs in Hch. apply chunked_app in Hch as [Hcpre Hch].
  apply chunked_app in Hch as [_ Hcpost].
  split; [|split; [|split]].
  - rewrite <- (join_chars s) at 1. rewrite Hs at 1.
    now rewrite !join_app.
  - unfold all_space. now rewrite chars_join.
  - unfold all_space. now rewrite chars_join.
  - unfold no_outer_space. rewrite chars_strip.
    destruct (rstrip_chars (lstrip_chars (chars s))) as [|c cs] eqn:Hr;
      [reflexivity|].
    rewrite (rstrip_last _ _ _ Hr).
    destruct (lstrip_chars (chars s)) as [|c' r'] eqn:Hl; [discriminate|].
    pose proof (lstrip_head _ _ _ Hl) as Hc'.
    destruct (rstrip_keeps_head c' r' Hc') as [r'' Hr''].
    rewrite Hr'' in Hr. injection Hr as <- _. now rewrite Hc'.
Qed.

(** The characters of a slice. *)
Lemma chars_slice_to n s : chars (slice_to n s) = take n (chars s).
Proof.
  apply chars_join. pose proof (chars_chunked s) as H.
  rewrite <- (take_drop n (chars s)) in H. now apply chunked_app in H as [H _].
Qed.

Lemma slice_to_length n s : (length (chars (slice_to n s)) <= n)%nat.
Proof. rewrite chars_slice_to, length_take. lia. Qed.

Lemma slice_to_short n s :
  (length (chars s) <= n)%nat -> slice_to n s = s.
Proof.
  intros H. unfold slice_to. rewrite take_ge by exact H. apply join_chars.
Qed.

Lemma chars_ascii_head b s :
  is_ascii (String b s) = true ->
  chars (String b s) = String b EmptyString :: chars s.
Proof.
  simpl. intros [_ Hs]%andb_true_iff.
  destruct s as [|b' s']; [reflexivity|].
  destruct (chars_head b' s') as (t & cs & Hc). rewrite Hc.
  simpl in Hs. apply andb_true_iff in Hs as [Hb' _].
  assert (is_continuation b' = false) as Hnc.
  { unfold is_continuation. apply Nat.ltb_lt in Hb'.
    apply andb_false_iff. left. apply Nat.leb_gt. exact Hb'. }
  simpl. now rewrite Hnc.
Qed.

(** On ASCII text [lower] does what "lower-cased" says, whatever the case
    data for the other characters. *)
Lemma lower_ascii ucd s :
  is_ascii s = true -> lower ucd s = ascii_lowercase s.
Proof.
  unfold lower. generalize (@nil string) as before.
  induction s as [|b s IH]; intros before Hs; [reflexivity|].
  rewrite (chars_ascii_head b s Hs). simpl in Hs.
  apply andb_true_iff in Hs as [Hb Hs].
  cbn [lower_chars lower_char]. rewrite Hb, join_cons, (IH _ Hs).
  reflexivity.
Qed.

End PyStrFacts.

Example strip_unicode_whitespace :
  PyStr.strip (PyStr.utf8 160 +:+ " bob" +:+ PyStr.utf8 12288 +:+ PyStr.utf8 133)
  = "bob".
Proof. vm_compute. reflexivity. Qed.

Example strip_keeps_inner_whitespace :
  PyStr.strip ("  Alice" +:+ PyStr.utf8 160 +:+ "Smith ")
  = "Alice" +:+ PyStr.utf8 160 +:+ "Smith".
Proof. vm_compute. reflexivity. Qed.

Example slice_counts_characters :
  PyStr.slice_to 3 "été 2024" = "été" /\ String.length "été" = 5%nat.
Proof. split; vm_compute; reflexivity. Qed.

Example lower_with_case_data :
  PyStr.lower Demo.ucd "École Café" = "école café".
Proof. vm_compute. reflexivity. Qed.

(** ** The store *)

Lemma collection_append_doc cs coll doc :
  collection (append_doc cs coll doc) coll = (collection cs coll ++ [doc])%list.
Proof.
  induction cs as [|[c docs] cs IH]; simpl.
  - now rewrite String.eqb_refl.
  - destruct (String.eqb c coll) eqn:E; simpl; rewrite E; [reflexivity | exact IH].
Qed.

Lemma lookup_nonempty (d : Doc) k v : d !! k = Some v -> size d <> 0%nat.
Proof.
  intros Hk Hs. apply map_size_empty_iff in Hs. subst d.
  rewrite lookup_empty in Hk. discriminate.
Qed.

Lemma matches_field_eq (d : Doc) k s :
  matches (FieldEq k s) d = true <-> d !! k = Some (SStr s).
Proof. simpl. apply bool_decide_eq_true. Qed.

Lemma matches_or2 (d : Doc) q1 q2 :
  matches (Or [q1; q2]) d = matches q1 d || matches q2 d.
Proof. simpl. now rewrite orb_false_r. Qed.

Lemma matches_taken (d : Doc) email name :
  matches (taken email name) d = true <->
  d !! "email" = Some (SStr email) \/ d !! "name" = Some (SStr name).
Proof.
  unfold taken. rewrite matches_or2, orb_true_iff, !matches_field_eq. tauto.
Qed.

(** A document returned for one of the handlers' queries has a field, so
    it is a true value. *)
Lemma found_taken_truthy email name docs doc :
  find_first (taken email name) docs = Some doc ->
  doc_truthy (Some doc) = true.
Proof.
  intros Hf. apply find_some in Hf as [_ Hm].
  apply matches_taken in Hm. simpl.
  apply negb_true_iff, bool_decide_eq_false.
  destruct Hm as [Hm|Hm]; eapply lookup_nonempty; eassumption.
Qed.

Lemma found_name_truthy name docs doc :
  find_first (FieldEq "name" name) docs = Some doc ->
  doc_truthy (Some doc) = true.
Proof.
  intros Hf. apply find_some in Hf as [_ Hm].
  apply matches_field_eq in Hm. simpl.
  apply negb_true_iff, bool_decide_eq_false.
  eapply lookup_nonempty; eassumption.
Qed.

Lemma taken_falsy_none email name docs :
  doc_truthy (find_first (taken email name) docs) = false ->
  find_first (taken email name) docs = None.
Proof.
  destruct (find_first _ docs) as [doc|] eqn:Hf; [|reflexivity].
  intros Ht. apply found_taken_truthy in Hf. congruence.
Qed.

Lemma find_first_exists q docs (doc : Doc) :
  In doc docs -> matches q doc = true ->
  exists doc', find_first q docs = Some doc'.
Proof.
  intros Hin Hm. unfold find_first.
  destruct (List.find (matches q) docs) as [doc'|] eqn:Hf; [eauto|].
  eapply find_none in Hf; [|exact Hin]. congruence.
Qed.

(** ** The handlers, case by case *)

Section AuthFacts.

Variable ucd : PyStr.CaseData.
Variable pwd_context : CryptContext.

(** Every path through [signup]. *)
Lemma signup_cases payload w :
  signup ucd pwd_context payload w =
  match db w with
  | None => (inl (HTTPException 500 "Database not available"), w)
  | Some d =>
      let w1 := log (EvFindOne "account" (signup_query ucd payload)) w in
      match find_fault d with
      | Some e => (inl (Unhandled e), w1)
      | None =>
          if doc_truthy (find_first (signup_query ucd payload)
                           (collection (colls d) "account"))
          then (inl (HTTPException 400
                       "Account with this email or name already exists"), w1)
          else
            let salt := hd "" (urandom w) in
            let w2 := set_urandom (tl (urandom w))
                        (log (EvHash (SignupPayload.password payload)) w1) in
            match hash_with pwd_context salt
                    (SignupPayload.password payload) with
            | inl e => (inl (Unhandled e), w2)
            | inr h =>
                let doc := signup_document ucd d salt payload h in
                let w3 := log (EvInsertOne "account" doc) w2 in
                match insert_fault d with
                | Some e =>
                    (inl (Unhandled {| exc_class := "DatabaseError";
                                       exc_str := exc_str e |}), w3)
                | None =>
                    (inr (signup_response ucd d payload),
                     set_db (insert_into d "account" doc) w3)
                end
            end
      end
  end.
Proof.
  unfold signup, bind, gets, map_exc, find_one, hash, create_document,
    raise, ret, signup_query, taken, signup_document, signup_response.
  destruct (db w) as [d|] eqn:Hdb; simpl; [|reflexivity].
  rewrite Hdb. destruct (find_fault d); simpl; [reflexivity|].
  destruct (doc_truthy _); simpl; [reflexivity|].
  destruct (hash_with _ _ _); simpl; [reflexivity|].
  rewrite Hdb. destruct (insert_fault d); reflexivity.
Qed.

(** Every path through [login]. *)
Lemma login_cases payload w :
  login pwd_context payload w =
  match db w with
  | None => (inl (HTTPException 500 "Database not available"), w)
  | Some d =>
      let w1 := log (EvFindOne "account" (login_query payload)) w in
      match find_fault d with
      | Some e => (inl (Unhandled e), w1)
      | None =>
          match find_first (login_query payload)
                  (collection (colls d) "account") with
          | None => (inl invalid_credentials, w1)
          | Some doc =>
              let stored := get_or doc "password_hash" (SStr "") in
              let w2 := log (EvVerify (LoginPayload.password payload) stored)
                          w1 in
              match verify_with pwd_context
                      (LoginPayload.password payload) stored with
              | inl e => (inl (Unhandled e), w2)
              | inr false => (inl invalid_credentials, w2)
              | inr true => (inr (login_response doc), w2)
              end
          end
      end
  end.
Proof.
  unfold login, bind, gets, map_exc, find_one, verify, raise, ret,
    login_query, login_response, invalid_credentials.
  destruct (db w) as [d|] eqn:Hdb; simpl; [|reflexivity].
  rewrite ?Hdb. destruct (find_fault d); simpl; [reflexivity|].
  destruct (find_first _ _) as [doc|] eqn:Hf; [|reflexivity].
  pose proof (found_name_truthy _ _ _ Hf) as Ht. simpl in Ht.
  simpl. rewrite Ht. simpl.
  destruct (verify_with _ _ _) as [e|[]]; reflexivity.
Qed.

End AuthFacts.

(** ** The probe, case by case *)

(** Every path through [test_database]. *)
Lemma test_database_cases w :
  test_database w =
  match db w with
  | None =>
      (inr (env_flags w
              (<["database" := Atom (SStr "⚠️  Available but not initialized")]>
                 initial_response)), w)
  | Some d =>
      match name_escapes d with
      | Some e =>
          (inr (env_flags w
                  (<["database" :=
                       Atom (SStr ("❌ Error: "
                                   +:+ PyStr.slice_to 50 (exc_str e)))]>
                  (<["database_url" := Atom (SStr "✅ Configured")]>
                  (<["database" := Atom (SStr "✅ Available")]>
                     initial_response)))), w)
      | None => listed d w (name_shown d)
      end
  end.
Proof.
  unfold test_database, test_database_body, try_except, bind, in_world, gets,
    getenv, setitem, modify, hasattr_name, getattr_name, name_escapes,
    name_shown, list_collection_names, raise, ret, listed, env_flags,
    connected.
  simpl. destruct (db w) as [d|] eqn:Hdb; simpl; [|reflexivity].
  destruct (name_attr d) as [|nm|e]; simpl;
    [|
     |destruct (is_attribute_error e); simpl];
    rewrite ?Hdb; simpl; try reflexivity;
    destruct (list_fault d); reflexivity.
Qed.

(** ** Facts about the stored document and the traces *)

Lemma signup_document_fields ucd d salt payload h :
  let doc := signup_document ucd d salt payload h in
  doc !! "_id" = Some (SOid (next_oid d)) /\
  doc !! "name" = Some (SStr (PyStr.strip (SignupPayload.name payload))) /\
  doc !! "email" =
    Some (SStr (PyStr.strip (PyStr.lower ucd (SignupPayload.email payload)))) /\
  doc !! "password_hash" = Some (SStr h) /\
  doc !! "avatar_url" = Some (of_optional (SignupPayload.avatar_url payload)) /\
  doc !! "onboarded" = Some (SBool false).
Proof.
  unfold signup_document, model_dump. simpl.
  repeat split; simplify_map_eq; reflexivity.
Qed.

Lemma login_response_signup_document ucd d salt payload h :
  login_response (signup_document ucd d salt payload h) = signup_response ucd d payload.
Proof.
  destruct (signup_document_fields ucd d salt payload h)
    as (Hid & Hn & He & _ & Ha & Ho).
  unfold login_response, signup_response, get, get_or.
  now rewrite Hid, Hn, He, Ha, Ho.
Qed.

Lemma signup_response_fields ucd d payload :
  let resp := signup_response ucd d payload in
  dom resp = profile_keys /\
  resp !! "id" = Some (Atom (SStr (str_oid (next_oid d)))) /\
  resp !! "name" =
    Some (Atom (SStr (PyStr.strip (SignupPayload.name payload)))) /\
  resp !! "email" =
    Some (Atom (SStr (PyStr.strip (PyStr.lower ucd (SignupPayload.email payload))))) /\
  resp !! "avatar_url" =
    Some (Atom (of_optional (SignupPayload.avatar_url payload))) /\
  resp !! "onboarded" = Some (Atom (SBool false)) /\
  resp !! "password_hash" = None /\
  resp !! "password" = None.
Proof.
  unfold signup_response, profile, profile_keys. simpl.
  split; [rewrite !dom_insert_L, dom_empty_L; set_solver|].
  repeat split; simplify_map_eq; reflexivity.
Qed.

Lemma find_first_app q (l1 l2 : list Doc) :
  find_first q (l1 ++ l2)%list =
  match find_first q l1 with
  | Some doc => Some doc
  | None => find_first q l2
  end.
Proof.
  unfold find_first. induction l1 as [|doc l1 IH]; simpl; [reflexivity|].
  destruct (matches q doc); [reflexivity | exact IH].
Qed.

Lemma unknown_name_not_found name (docs : list Doc) :
  (forall doc, In doc docs -> doc !! "name" <> Some (SStr name)) ->
  find_first (FieldEq "name" name) docs = None.
Proof.
  intros Hno. destruct (find_first _ docs) as [doc|] eqn:Hf; [|reflexivity].
  apply find_some in Hf as [Hin Hm]. apply matches_field_eq in Hm.
  now apply Hno in Hin.
Qed.

Lemma not_taken_name_free email name (docs : list Doc) :
  find_first (taken email name) docs = None ->
  find_first (FieldEq "name" name) docs = None.
Proof.
  intros Hnone. apply unknown_name_not_found. intros doc Hin Hn.
  eapply find_none in Hnone; [|exact Hin].
  assert (matches (taken email name) doc = true) as Hm
    by (apply matches_taken; now right).
  congruence.
Qed.

Lemma trace_log ev w : trace (log ev w) = (trace w ++ [ev])%list.
Proof. reflexivity. Qed.

Lemma filter_snoc {A} (f : A -> bool) (l : list A) (x : A) :
  f x = false -> List.filter f (l ++ [x])%list = List.filter f l.
Proof.
  intros Hx. rewrite List.filter_app. simpl. rewrite Hx. apply app_nil_r.
Qed.

(** ** The endpoints' guarantees *)

(** C6 (as the code has it): when the database handle is not initialised,
    [signup] and [login] both raise the HTTP 500 exception whose detail is
    "Database not available" (no closing full stop), and they leave the
    process state as it was: no database call and no other effect is added
    to the trace. *)
Theorem unavailable_database_is_500 ucd ctx w sp lp :
  db w = None ->
  signup ucd ctx sp w = (inl (HTTPException 500 "Database not available"), w) /\
  login ctx lp w = (inl (HTTPException 500 "Database not available"), w) /\
  http_status (fst (signup ucd ctx sp w)) = 500 /\
  http_status (fst (login ctx lp w)) = 500 /\
  trace (snd (signup ucd ctx sp w)) = trace w /\
  trace (snd (login ctx lp w)) = trace w.
Proof.
  intros Hdb. rewrite signup_cases, login_cases, Hdb. simpl. repeat split.
Qed.

Lemma unavailable_database_is_500_witness :
  signup Demo.ucd Demo.context Demo.alice (Demo.world None) =
    (inl (HTTPException 500 "Database not available"), Demo.world None) /\
  login Demo.context Demo.alice_login (Demo.world None) =
    (inl (HTTPException 500 "Database not available"), Demo.world None).
Proof.
  destruct (unavailable_database_is_500 Demo.ucd Demo.context (Demo.world None)
              Demo.alice Demo.alice_login) as (Hs & Hl & _).
  - reflexivity.
  - split; [exact Hs | exact Hl].
Defined.

(** C6 as worded fails: without a database handle the detail that [signup]
    and [login] raise is not the string "Database not available." *)
Lemma unavailable_detail_without_full_stop :
  db (Demo.world None) = None /\
  fst (signup Demo.ucd Demo.context Demo.alice (Demo.world None)) <>
    inl (HTTPException 500 "Database not available.") /\
  fst (login Demo.context Demo.alice_login (Demo.world None)) <>
    inl (HTTPException 500 "Database not available.").
Proof.
  split; [reflexivity|]. rewrite signup_cases, login_cases. simpl.
  split; intros H; discriminate H.
Qed.

(** C5 (as the code has it): when the lookup returns and the account
    collection holds a document whose name is the normalised name or whose
    email is the normalised email, [signup] raises the HTTP 400 exception
    whose detail is "Account with this email or name already exists" (no
    closing full stop); a match on either field alone is enough. *)
Theorem duplicate_signup_is_400 ucd ctx w d sp doc :
  db w = Some d ->
  find_fault d = None ->
  In doc (collection (colls d) "account") ->
  doc !! "name" = Some (SStr (PyStr.strip (SignupPayload.name sp))) \/
  doc !! "email" =
    Some (SStr (PyStr.strip (PyStr.lower ucd (SignupPayload.email sp)))) ->
  fst (signup ucd ctx sp w) =
    inl (HTTPException 400 "Account with this email or name already exists") /\
  http_status (fst (signup ucd ctx sp w)) = 400.
Proof.
  intros Hdb Hfault Hin Hdup.
  assert (matches (signup_query ucd sp) doc = true) as Hm
    by (apply matches_taken; tauto).
  destruct (find_first_exists _ _ _ Hin Hm) as [doc' Hf].
  rewrite signup_cases, Hdb. simpl. rewrite Hfault, Hf.
  unfold signup_query in Hf. rewrite (found_taken_truthy _ _ _ _ Hf).
  split; reflexivity.
Qed.

Lemma duplicate_signup_is_400_witness :
  fst (signup Demo.ucd Demo.context Demo.bob Demo.registered) =
    inl (HTTPException 400 "Account with this email or name already exists") /\
  http_status (fst (signup Demo.ucd Demo.context Demo.bob Demo.registered)) = 400.
Proof.
  apply (duplicate_signup_is_400 Demo.ucd Demo.context Demo.registered
           (insert_into Demo.empty_db "account"
              (signup_document Demo.ucd Demo.empty_db "ab" Demo.alice
                 (Demo.stored "ab" "secret123")))
           Demo.bob
           (signup_document Demo.ucd Demo.empty_db "ab" Demo.alice
              (Demo.stored "ab" "secret123"))).
  - reflexivity.
  - reflexivity.
  - left. reflexivity.
  - right. vm_compute. reflexivity.
Defined.

(** C5 as worded fails: bob signs up with the address alice already holds
    and a different name; the detail raised is not the string that ends in a
    full stop. *)
Lemma duplicate_detail_without_full_stop :
  (exists doc, In doc (collection
                         (colls (default Demo.empty_db (db Demo.registered)))
                         "account") /\
               doc !! "email" =
                 Some (SStr (PyStr.strip
                               (PyStr.lower Demo.ucd (SignupPayload.email Demo.bob)))) /\
               doc !! "name" <>
                 Some (SStr (PyStr.strip (SignupPayload.name Demo.bob)))) /\
  fst (signup Demo.ucd Demo.context Demo.bob Demo.registered) <>
    inl (HTTPException 400 "Account with this email or name already exists.").
Proof.
  split.
  - exists (signup_document Demo.ucd Demo.empty_db "ab" Demo.alice
              (Demo.stored "ab" "secret123")).
    split; [left; reflexivity|].
    split; [vm_compute; reflexivity | vm_compute; intros H; discriminate H].
  - vm_compute. intros H. discriminate H.
Qed.

(** C8: when [signup] fails because the database handle is missing, or
    because a stored document matches the normalised name or email, it
    raises, the database is exactly as before (no document inserted), no
    insertion was attempted, no password hash was computed and no salt was
    drawn. *)
Theorem failed_signup_changes_nothing ucd ctx w sp :
  db w = None \/
  (exists d doc,
     db w = Some d /\
     In doc (collection (colls d) "account") /\
     (doc !! "name" = Some (SStr (PyStr.strip (SignupPayload.name sp))) \/
      doc !! "email" =
        Some (SStr (PyStr.strip (PyStr.lower ucd (SignupPayload.email sp)))))) ->
  (exists e, fst (signup ucd ctx sp w) = inl e) /\
  db (snd (signup ucd ctx sp w)) = db w /\
  List.filter is_write_event (trace (snd (signup ucd ctx sp w))) =
    List.filter is_write_event (trace w) /\
  List.filter is_hash_event (trace (snd (signup ucd ctx sp w))) =
    List.filter is_hash_event (trace w) /\
  urandom (snd (signup ucd ctx sp w)) = urandom w.
Proof.
  intros [Hdb | (d & doc & Hdb & Hin & Hdup)]; rewrite signup_cases, Hdb; simpl.
  - repeat split; eauto.
  - assert (matches (signup_query ucd sp) doc = true) as Hm
      by (apply matches_taken; tauto).
    destruct (find_first_exists _ _ _ Hin Hm) as [doc' Hf].
    destruct (find_fault d) as [e|]; simpl.
    + rewrite !filter_snoc by reflexivity. repeat split; eauto.
    + rewrite Hf. unfold signup_query in Hf.
      rewrite (found_taken_truthy _ _ _ _ Hf). simpl.
      rewrite !filter_snoc by reflexivity. repeat split; eauto.
Qed.

Lemma failed_signup_changes_nothing_witness :
  db (snd (signup Demo.ucd Demo.context Demo.bob Demo.registered)) = db Demo.registered /\
  List.filter is_hash_event
    (trace (snd (signup Demo.ucd Demo.context Demo.bob Demo.registered))) =
  List.filter is_hash_event (trace Demo.registered).
Proof.
  destruct (failed_signup_changes_nothing Demo.ucd Demo.context Demo.registered Demo.bob)
    as (_ & Hdb & _ & Hh & _).
  - right.
    exists (insert_into Demo.empty_db "account"
              (signup_document Demo.ucd Demo.empty_db "ab" Demo.alice
                 (Demo.stored "ab" "secret123"))),
           (signup_document Demo.ucd Demo.empty_db "ab" Demo.alice
              (Demo.stored "ab" "secret123")).
    split; [reflexivity|]. split; [left; reflexivity|].
    right. vm_compute. reflexivity.
  - split; [exact Hdb | exact Hh].
Defined.

(** C3 (as the code has it): when the password context returns false for
    the wrong password, a login whose trimmed name matches no stored
    document and a login whose name is found raise the same exception, HTTP
    401 with detail "Invalid name or password"; the two responses are
    equal. *)
Theorem login_failures_are_identical ctx w1 d1 lp1 w2 d2 lp2 doc :
  db w1 = Some d1 -> find_fault d1 = None ->
  (forall doc1, In doc1 (collection (colls d1) "account") ->
     doc1 !! "name" <> Some (SStr (PyStr.strip (LoginPayload.name lp1)))) ->
  db w2 = Some d2 -> find_fault d2 = None ->
  find_first (login_query lp2) (collection (colls d2) "account") = Some doc ->
  verify_with ctx (LoginPayload.password lp2)
    (get_or doc "password_hash" (SStr "")) = inr false ->
  fst (login ctx lp1 w1) = inl (HTTPException 401 "Invalid name or password") /\
  fst (login ctx lp2 w2) = inl (HTTPException 401 "Invalid name or password") /\
  fst (login ctx lp1 w1) = fst (login ctx lp2 w2) /\
  http_status (fst (login ctx lp1 w1)) = 401 /\
  http_status (fst (login ctx lp2 w2)) = 401.
Proof.
  intros Hdb1 Hf1 Hunknown Hdb2 Hf2 Hfound Hwrong.
  apply unknown_name_not_found in Hunknown.
  rewrite !login_cases, Hdb1, Hdb2. simpl.
  rewrite Hf1, Hf2. unfold login_query in *. rewrite Hunknown, Hfound, Hwrong.
  repeat split.
Qed.

Lemma login_failures_are_identical_witness :
  fst (login Demo.context Demo.nobody Demo.registered) =
  fst (login Demo.context Demo.wrong_password Demo.registered).
Proof.
  pose (d := insert_into Demo.empty_db "account"
               (signup_document Demo.ucd Demo.empty_db "ab" Demo.alice
                  (Demo.stored "ab" "secret123"))).
  destruct (login_failures_are_identical Demo.context
              Demo.registered d Demo.nobody
              Demo.registered d Demo.wrong_password
              (signup_document Demo.ucd Demo.empty_db "ab" Demo.alice
                 (Demo.stored "ab" "secret123")))
    as (_ & _ & Heq & _).
  - reflexivity.
  - reflexivity.
  - intros doc1 [<-|[]]. vm_compute. intros H. discriminate H.
  - reflexivity.
  - reflexivity.
  - vm_compute. reflexivity.
  - vm_compute. reflexivity.
  - exact Heq.
Defined.

(** C3 as worded fails: carol has an account whose stored hash the password
    context does not recognise, mallory has none.  With the same wrong
    password the unknown name is answered 401 and the known name 500,
    because the verification raises and [login] does not catch it. *)
Lemma known_name_with_unusable_hash_answers_500 :
  (forall doc, In doc (accounts (Demo.world (Some Demo.legacy_db))) ->
     doc !! "name" <>
       Some (SStr (PyStr.strip (LoginPayload.name Demo.nobody)))) /\
  (exists doc, In doc (accounts (Demo.world (Some Demo.legacy_db))) /\
     doc !! "name" =
       Some (SStr (PyStr.strip (LoginPayload.name Demo.carol_login)))) /\
  fst (login Demo.context Demo.nobody (Demo.world (Some Demo.legacy_db))) =
    inl (HTTPException 401 "Invalid name or password") /\
  fst (login Demo.context Demo.carol_login (Demo.world (Some Demo.legacy_db))) =
    inl (Unhandled Demo.unknown_hash) /\
  http_status
    (fst (login Demo.context Demo.carol_login
            (Demo.world (Some Demo.legacy_db)))) = 500 /\
  fst (login Demo.context Demo.nobody (Demo.world (Some Demo.legacy_db))) <>
  fst (login Demo.context Demo.carol_login (Demo.world (Some Demo.legacy_db))).
Proof.
  split.
  { intros doc [<-|[]]. vm_compute. intros H. discriminate H. }
  split.
  { exists Demo.legacy_doc. split; [left; reflexivity|].
    vm_compute. reflexivity. }
  split; [vm_compute; reflexivity|].
  split; [vm_compute; reflexivity|].
  split; [vm_compute; reflexivity|].
  vm_compute. intros H. discriminate H.
Qed.

(** C9: when the document [login] finds has no password_hash field, the
    handler does not take the absent-account branch: it calls the
    verification function with the empty string as the stored hash.  The
    answer is the 401 "Invalid name or password" exactly when that call
    returns false; if the call raises, the exception leaves the handler
    (HTTP 500), and if it returns true the login succeeds. *)
Theorem login_without_stored_hash ctx w d lp doc :
  db w = Some d -> find_fault d = None ->
  find_first (login_query lp) (collection (colls d) "account") = Some doc ->
  doc !! "password_hash" = None ->
  trace (snd (login ctx lp w)) =
    (trace w ++ [EvFindOne "account" (login_query lp);
                 EvVerify (LoginPayload.password lp) (SStr "")])%list /\
  (fst (login ctx lp w) = inl (HTTPException 401 "Invalid name or password") <->
   verify_with ctx (LoginPayload.password lp) (SStr "") = inr false) /\
  (forall e, verify_with ctx (LoginPayload.password lp) (SStr "") = inl e ->
     fst (login ctx lp w) = inl (Unhandled e) /\
     http_status (fst (login ctx lp w)) = 500) /\
  (verify_with ctx (LoginPayload.password lp) (SStr "") = inr true ->
     fst (login ctx lp w) = inr (login_response doc)).
Proof.
  intros Hdb Hfault Hfound Hnone.
  rewrite login_cases, Hdb. simpl. rewrite Hfault, Hfound.
  unfold get_or. rewrite Hnone. simpl.
  destruct (verify_with ctx (LoginPayload.password lp) (SStr "")) as [e|[]];
    simpl; rewrite <- app_assoc; simpl.
  - split; [reflexivity|]. split; [split; intros H; discriminate H|].
    split; [intros e' [= <-]; split; reflexivity | intros H; discriminate H].
  - split; [reflexivity|]. split; [split; intros H; discriminate H|].
    split; [intros e' H; discriminate H | reflexivity].
  - split; [reflexivity|]. split; [split; reflexivity|].
    split; [intros e' H; discriminate H | intros H; discriminate H].
Qed.

Lemma login_without_stored_hash_witness :
  fst (login Demo.context Demo.carol_login (Demo.world (Some Demo.legacy_db))) =
    inl (Unhandled Demo.unknown_hash) /\
  http_status
    (fst (login Demo.context Demo.carol_login
            (Demo.world (Some Demo.legacy_db)))) = 500.
Proof.
  destruct (login_without_stored_hash Demo.context
              (Demo.world (Some Demo.legacy_db)) Demo.legacy_db
              Demo.carol_login Demo.legacy_doc) as (_ & _ & Hraise & _).
  - reflexivity.
  - reflexivity.
  - vm_compute. reflexivity.
  - vm_compute. reflexivity.
  - apply Hraise. reflexivity.
Defined.

Lemma demo_context_sound salt p :
  verify_with Demo.context p (SStr (Demo.stored salt p)) = inr true.
Proof.
  unfold Demo.stored. simpl. f_equal.
  change (Demo.starts_with (p +:+ "$") (p +:+ "$" +:+ salt) = true).
  induction p as [|c p IH]; simpl; [reflexivity|].
  now rewrite Ascii.eqb_refl, IH.
Qed.

(** What a successful [signup] did. *)
Lemma signup_success ucd ctx sp w resp w' :
  signup ucd ctx sp w = (inr resp, w') ->
  exists d h,
    db w = Some d /\ find_fault d = None /\ insert_fault d = None /\
    find_first (signup_query ucd sp) (collection (colls d) "account") = None /\
    hash_with ctx (hd "" (urandom w)) (SignupPayload.password sp) = inr h /\
    resp = signup_response ucd d sp /\
    db w' = Some (insert_into d "account"
                    (signup_document ucd d (hd "" (urandom w)) sp h)).
Proof.
  rewrite signup_cases. destruct (db w) as [d|]; [|discriminate].
  simpl. destruct (find_fault d) eqn:Hff; [discriminate|].
  destruct (doc_truthy _) eqn:Ht; [discriminate|].
  destruct (hash_with _ _ _) as [e|h] eqn:Hh; [discriminate|].
  destruct (insert_fault d) eqn:Hif; [discriminate|].
  intros [= <- <-]. exists d, h.
  apply taken_falsy_none in Ht. repeat split; auto.
Qed.

(** C2: the body a successful [signup] returns has exactly the fields id,
    name, email, avatar_url and onboarded, with onboarded false; it has no
    password_hash and no password field, and it does not depend on the
    password: the same request with any other password, if it succeeds,
    returns the same body. *)
Theorem signup_response_shape ucd ctx w sp resp w' :
  signup ucd ctx sp w = (inr resp, w') ->
  dom resp = profile_keys /\
  resp !! "onboarded" = Some (Atom (SBool false)) /\
  resp !! "password_hash" = None /\
  resp !! "password" = None /\
  http_status (fst (signup ucd ctx sp w)) = 200 /\
  (forall sp2 resp2 w2',
     SignupPayload.name sp2 = SignupPayload.name sp ->
     SignupPayload.email sp2 = SignupPayload.email sp ->
     SignupPayload.avatar_url sp2 = SignupPayload.avatar_url sp ->
     signup ucd ctx sp2 w = (inr resp2, w2') ->
     resp2 = resp).
Proof.
  intros Hs. pose proof Hs as Hs0.
  apply signup_success in Hs as (d & h & Hdb & _ & _ & _ & _ & -> & _).
  destruct (signup_response_fields ucd d sp) as (Hdom & _ & _ & _ & _ & Ho & Hph & Hp).
  repeat split; auto.
  - now rewrite Hs0.
  - intros sp2 resp2 w2' Hn He Ha Hs2.
    apply signup_success in Hs2 as (d2 & h2 & Hdb2 & _ & _ & _ & _ & -> & _).
    rewrite Hdb in Hdb2. injection Hdb2 as <-.
    unfold signup_response. now rewrite Hn, He, Ha.
Qed.

Lemma signup_response_shape_witness :
  dom (signup_response Demo.ucd Demo.empty_db Demo.alice) = profile_keys /\
  signup_response Demo.ucd Demo.empty_db Demo.alice !! "password_hash" = None.
Proof.
  destruct (signup_response_shape Demo.ucd Demo.context
              (Demo.world (Some Demo.empty_db)) Demo.alice
              (signup_response Demo.ucd Demo.empty_db Demo.alice) Demo.registered)
    as (Hdom & _ & Hph & _).
  - reflexivity.
  - split; [exact Hdom | exact Hph].
Defined.

(** C4: after a successful [signup] the returned and the stored name are
    the input name trimmed, and the returned and the stored email are the
    lower-cased input email trimmed, where "trimmed" means: the input is the
    result between two runs of whitespace characters, and the result neither
    starts nor ends with one.  On ASCII input lower-casing replaces A..Z by
    a..z and nothing else.  The stored document is the one appended to the
    account collection, and the input email "Alice@Example.com " comes out
    as "alice@example.com". *)
Theorem signup_normalises ucd ctx w sp resp w' :
  signup ucd ctx sp w = (inr resp, w') ->
  exists name email,
    name = PyStr.strip (SignupPayload.name sp) /\
    email = PyStr.strip (PyStr.lower ucd (SignupPayload.email sp)) /\
    resp !! "name" = Some (Atom (SStr name)) /\
    resp !! "email" = Some (Atom (SStr email)) /\
    (exists d d' doc,
       db w = Some d /\ db w' = Some d' /\
       collection (colls d') "account" =
         (collection (colls d) "account" ++ [doc])%list /\
       doc !! "name" = Some (SStr name) /\
       doc !! "email" = Some (SStr email)) /\
    trimmed_of name (SignupPayload.name sp) /\
    trimmed_of email (PyStr.lower ucd (SignupPayload.email sp)) /\
    (is_ascii (SignupPayload.email sp) = true ->
     trimmed_of email (ascii_lowercase (SignupPayload.email sp))) /\
    (SignupPayload.email sp = "Alice@Example.com " ->
     email = "alice@example.com").
Proof.
  intros Hs.
  apply signup_success in Hs as (d & h & Hdb & _ & _ & _ & _ & -> & Hdb').
  destruct (signup_response_fields ucd d sp) as (_ & _ & Hn & He & _).
  destruct (signup_document_fields ucd d (hd "" (urandom w)) sp h)
    as (_ & Hdn & Hde & _).
  eexists _, _. split; [reflexivity|]. split; [reflexivity|].
  split; [exact Hn|]. split; [exact He|]. split.
  { exists d, (insert_into d "account"
                 (signup_document ucd d (hd "" (urandom w)) sp h)),
           (signup_document ucd d (hd "" (urandom w)) sp h).
    repeat split; auto. simpl. apply collection_append_doc. }
  split; [apply PyStrFacts.strip_trimmed|].
  split; [apply PyStrFacts.strip_trimmed|].
  split.
  - intros Hascii. rewrite <- (PyStrFacts.lower_ascii ucd _ Hascii).
    apply PyStrFacts.strip_trimmed.
  - intros Hex. rewrite Hex. reflexivity.
Qed.

Lemma signup_normalises_witness :
  exists name email,
    name = "Alice Smith" /\ email = "alice@example.com" /\
    signup_response Demo.ucd Demo.empty_db Demo.padded !! "name" =
      Some (Atom (SStr name)) /\
    signup_response Demo.ucd Demo.empty_db Demo.padded !! "email" =
      Some (Atom (SStr email)) /\
    trimmed_of name (SignupPayload.name Demo.padded).
Proof.
  destruct (signup_normalises Demo.ucd Demo.context
              (Demo.world (Some Demo.empty_db)) Demo.padded
              (signup_response Demo.ucd Demo.empty_db Demo.padded)
              (snd (signup Demo.ucd Demo.context Demo.padded
                      (Demo.world (Some Demo.empty_db)))))
    as (name & email & -> & -> & Hn & He & _ & Ht & _).
  - vm_compute. reflexivity.
  - eexists _, _. split; [vm_compute; reflexivity|].
    split; [vm_compute; reflexivity|].
    split; [exact Hn|]. split; [exact He | exact Ht].
Defined.

(** C1: if the password context verifies what it hashed, then after a
    successful [signup] a [login] with the same name and password, run on
    the state the signup left, succeeds with HTTP 200 and returns the very
    body the signup returned: the same id, a string, and the name, email,
    avatar_url and onboarded=false of the account.  Whenever [login]
    succeeds its id is a string, and onboarded is false if the document it
    found has no such field. *)
Theorem signup_then_login ucd ctx w sp resp w' lp :
  (forall salt p h,
     hash_with ctx salt p = inr h -> verify_with ctx p (SStr h) = inr true) ->
  signup ucd ctx sp w = (inr resp, w') ->
  LoginPayload.name lp = SignupPayload.name sp ->
  LoginPayload.password lp = SignupPayload.password sp ->
  (exists w'' id,
     login ctx lp w' = (inr resp, w'') /\
     http_status (fst (login ctx lp w')) = 200 /\
     resp !! "id" = Some (Atom (SStr id)) /\
     resp !! "name" =
       Some (Atom (SStr (PyStr.strip (SignupPayload.name sp)))) /\
     resp !! "email" =
       Some (Atom (SStr (PyStr.strip
                           (PyStr.lower ucd (SignupPayload.email sp))))) /\
     resp !! "avatar_url" =
       Some (Atom (of_optional (SignupPayload.avatar_url sp))) /\
     resp !! "onboarded" = Some (Atom (SBool false))) /\
  (forall w0 lp0 r0 w0',
     login ctx lp0 w0 = (inr r0, w0') ->
     exists d doc,
       db w0 = Some d /\
       find_first (login_query lp0) (collection (colls d) "account") = Some doc /\
       r0 = login_response doc /\
       is_str (r0 !! "id") /\
       (doc !! "onboarded" = None ->
        r0 !! "onboarded" = Some (Atom (SBool false)))).
Proof.
  intros Hctx Hs Hname Hpw. split.
  - apply signup_success in Hs
      as (d & h & Hdb & Hff & _ & Hfree & Hh & -> & Hdb').
    destruct (signup_response_fields ucd d sp) as (_ & Hid & Hn & He & Ha & Ho & _).
    destruct (signup_document_fields ucd d (hd "" (urandom w)) sp h)
      as (_ & Hdn & _ & Hdh & _).
    set (doc := signup_document ucd d (hd "" (urandom w)) sp h) in *.
    assert (find_first (login_query lp)
              (collection (colls (insert_into d "account" doc)) "account")
            = Some doc) as Hfound.
    { simpl. rewrite collection_append_doc, find_first_app.
      unfold login_query. rewrite Hname.
      unfold signup_query in Hfree.
      rewrite (not_taken_name_free _ _ _ Hfree). unfold find_first. simpl.
      rewrite bool_decide_eq_true_2 by exact Hdn. reflexivity. }
    assert (login ctx lp w' =
            (inr (signup_response ucd d sp),
             log (EvVerify (LoginPayload.password lp) (SStr h))
               (log (EvFindOne "account" (login_query lp)) w'))) as Hl.
    { rewrite login_cases, Hdb'. simpl. rewrite Hff.
      simpl in Hfound. rewrite Hfound.
      unfold get_or. rewrite Hdh. simpl.
      rewrite Hpw, (Hctx _ _ _ Hh).
      unfold doc. now rewrite login_response_signup_document. }
    eexists _, (str_oid (next_oid d)). rewrite Hl.
    repeat split; auto.
  - intros w0 lp0 r0 w0'. rewrite login_cases.
    destruct (db w0) as [d|]; [|discriminate]. simpl.
    destruct (find_fault d); [discriminate|].
    destruct (find_first _ _) as [doc|] eqn:Hf; [|discriminate].
    destruct (verify_with _ _ _) as [e|[]]; try discriminate.
    intros [= <- <-]. exists d, doc.
    split; [reflexivity|]. split; [exact Hf|]. split; [reflexivity|].
    unfold login_response, profile, is_str, get_or. split.
    + eexists. simplify_map_eq. reflexivity.
    + intros ->. simplify_map_eq. reflexivity.
Qed.

Lemma signup_then_login_witness :
  fst (login Demo.context Demo.alice_login Demo.registered) =
    inr (signup_response Demo.ucd Demo.empty_db Demo.alice) /\
  signup_response Demo.ucd Demo.empty_db Demo.alice !! "id" =
    Some (Atom (SStr "000000000000000000000001")).
Proof.
  destruct (signup_then_login Demo.ucd Demo.context
              (Demo.world (Some Demo.empty_db)) Demo.alice
              (signup_response Demo.ucd Demo.empty_db Demo.alice) Demo.registered
              Demo.alice_login)
    as ((w'' & id & Hl & _) & _).
  - intros salt p h [= <-]. apply demo_context_sound.
  - reflexivity.
  - reflexivity.
  - reflexivity.
  - split; [now rewrite Hl | vm_compute; reflexivity].
Defined.

(** ** The probe's guarantees *)



Lemma flag_set b : flag b = "✅ Set" <-> b = true.
Proof. destruct b; simpl; split; intros H; try reflexivity; discriminate H. Qed.

Lemma opt_truthy_spec o :
  opt_truthy o = true <-> exists s, o = Some s /\ s <> "".
Proof.
  destruct o as [[|c s]|]; simpl; split.
  - intros H; discriminate H.
  - intros (s & [= <-] & Hs). now contradiction Hs.
  - intros _. eexists. split; [reflexivity | intros H; discriminate H].
  - reflexivity.
  - intros H; discriminate H.
  - intros (s & H & _). discriminate H.
Qed.

(** C7 (as the code has it): in every state of the process (no handle, a
    handle whose attribute access raises, a handle whose listing raises, a
    working handle) the probe returns, so the route answers HTTP 200; the
    body has the six diagnostic fields; backend, database, database_url,
    database_name and connection_status are strings, backend being the
    running mark; each of the two environment fields is the flag "Set" when
    its variable is set to a non-empty value and the flag "Not Set"
    otherwise, never the value itself; collections is a list of at most ten
    names. *)
Theorem probe_always_answers w :
  exists resp,
    fst (get_test w) = inr resp /\
    http_status (fst (get_test w)) = 200 /\
    dom resp = probe_keys /\
    resp !! "backend" = Some (Atom (SStr "✅ Running")) /\
    is_str (resp !! "database") /\
    is_str (resp !! "connection_status") /\
    resp !! "database_url" =
      Some (Atom (SStr (if opt_truthy (environ w !! "DATABASE_URL")
                        then "✅ Set" else "❌ Not Set"))) /\
    resp !! "database_name" =
      Some (Atom (SStr (if opt_truthy (environ w !! "DATABASE_NAME")
                        then "✅ Set" else "❌ Not Set"))) /\
    (opt_truthy (environ w !! "DATABASE_URL") = true <->
     exists s, environ w !! "DATABASE_URL" = Some s /\ s <> "") /\
    (opt_truthy (environ w !! "DATABASE_NAME") = true <->
     exists s, environ w !! "DATABASE_NAME" = Some s /\ s <> "") /\
    (exists names,
       resp !! "collections" = Some (VList names) /\
       (length names <= 10)%nat).
Proof.
  unfold get_test, map_exc. rewrite test_database_cases.
  destruct (db w) as [d|];
    [destruct (name_escapes d) as [e|];
       [|generalize (name_shown d); intros nm; unfold listed;
         destruct (list_fault d)] |].
  all: simpl; eexists; split; [reflexivity|]; split; [reflexivity|].
  all: unfold env_flags, connected, initial_response, probe_keys, is_str, flag.
  all: split; [rewrite !dom_insert_L, dom_empty_L; set_solver|].
  all: simplify_map_eq.
  all: split; [reflexivity|].
  all: split; [eexists; reflexivity|].
  all: split; [eexists; reflexivity|].
  all: split; [reflexivity|].
  all: split; [reflexivity|].
  all: split; [apply opt_truthy_spec|].
  all: split; [apply opt_truthy_spec|].
  all: eexists; split; [reflexivity|].
  all: try (simpl; lia).
  all: rewrite length_take; lia.
Qed.

(** C7 as worded fails: DATABASE_NAME is set, to the empty string, and the
    probe, answering 200, reports it as "Not Set". *)
Lemma set_but_empty_name_is_flagged_not_set :
  is_Some (environ (Demo.named_with "") !! "DATABASE_NAME") /\
  exists resp,
    fst (get_test (Demo.named_with "")) = inr resp /\
    http_status (fst (get_test (Demo.named_with ""))) = 200 /\
    resp !! "database_url" = Some (Atom (SStr "✅ Set")) /\
    resp !! "database_name" = Some (Atom (SStr "❌ Not Set")).
Proof.
  split; [eexists; vm_compute; reflexivity|].
  eexists. split; [reflexivity|].
  repeat split; vm_compute; reflexivity.
Qed.

(** C10 (as the code has it): the final database_url and database_name of
    the probe are the flag strings of the two environment variables, "Set"
    exactly when the variable is set to a non-empty value, whatever the
    database handle is; the two closing assignments replace the values the
    connection branch had put there ("Configured" and the handle's name). *)
Theorem env_decides_url_and_name w :
  exists before resp,
    fst (test_database w) = inr resp /\
    resp = env_flags w before /\
    resp !! "database_url" =
      Some (Atom (SStr (flag (opt_truthy (environ w !! "DATABASE_URL"))))) /\
    resp !! "database_name" =
      Some (Atom (SStr (flag (opt_truthy (environ w !! "DATABASE_NAME"))))) /\
    (resp !! "database_url" = Some (Atom (SStr "✅ Set")) <->
     exists s, environ w !! "DATABASE_URL" = Some s /\ s <> "") /\
    (resp !! "database_name" = Some (Atom (SStr "✅ Set")) <->
     exists s, environ w !! "DATABASE_NAME" = Some s /\ s <> "") /\
    (forall d, db w = Some d ->
       before !! "database_url" = Some (Atom (SStr "✅ Configured"))) /\
    (forall d nm, db w = Some d -> name_attr d = AttrValue nm ->
       before !! "database_name" = Some (Atom (SStr nm))).
Proof.
  assert (forall before : Dict,
    env_flags w before !! "database_url" =
      Some (Atom (SStr (flag (opt_truthy (environ w !! "DATABASE_URL"))))) /\
    env_flags w before !! "database_name" =
      Some (Atom (SStr (flag (opt_truthy (environ w !! "DATABASE_NAME"))))))
    as Hflags.
  { intros before. unfold env_flags. split; simplify_map_eq; reflexivity. }
  assert (forall before : Dict,
    (env_flags w before !! "database_url" = Some (Atom (SStr "✅ Set")) <->
     exists s, environ w !! "DATABASE_URL" = Some s /\ s <> "") /\
    (env_flags w before !! "database_name" = Some (Atom (SStr "✅ Set")) <->
     exists s, environ w !! "DATABASE_NAME" = Some s /\ s <> "")) as Hiff.
  { intros before. destruct (Hflags before) as [-> ->].
    rewrite <- !opt_truthy_spec, <- !flag_set.
    split; split; intros H; congruence. }
  rewrite test_database_cases.
  destruct (db w) as [d|];
    [destruct (name_escapes d) as [e|] eqn:Hesc;
       [|unfold listed; destruct (list_fault d)] |].
  all: simpl; eexists _, _; split; [reflexivity|]; split; [reflexivity|].
  all: split; [apply Hflags|]; split; [apply Hflags|].
  all: split; [apply Hiff|]; split; [apply Hiff|].
  all: unfold connected, initial_response.
  all: split; [intros d' Hd | intros d' nm' Hd Hnm]; try discriminate Hd;
    injection Hd as <-;
    try (unfold name_escapes in Hesc; rewrite Hnm in Hesc; discriminate Hesc);
    try (unfold name_shown; rewrite Hnm).
  all: simplify_map_eq; reflexivity.
Qed.

(** C10 as worded fails: DATABASE_URL is set in both processes, to the
    empty string in one and to an address in the other, and the probe
    reports "Not Set" for the first and "Set" for the second. *)
Lemma set_but_empty_is_reported_not_set :
  is_Some (environ (Demo.started_with "") !! "DATABASE_URL") /\
  is_Some (environ (Demo.started_with "mongodb://db") !! "DATABASE_URL") /\
  (exists resp,
     fst (test_database (Demo.started_with "")) = inr resp /\
     resp !! "database_url" = Some (Atom (SStr "❌ Not Set"))) /\
  (exists resp,
     fst (test_database (Demo.started_with "mongodb://db")) = inr resp /\
     resp !! "database_url" = Some (Atom (SStr "✅ Set"))).
Proof.
  split; [eexists; vm_compute; reflexivity|].
  split; [eexists; vm_compute; reflexivity|].
  split; eexists; (split; [reflexivity | vm_compute; reflexivity]).
Qed.

(** * Further properties of the handlers *)

(** ** Trimming and lower-casing *)

Lemma all_bytes_append p (a b : string) :
  all_bytes p (a +:+ b) = all_bytes p a && all_bytes p b.
Proof.
  induction a as [|x a IH]; [reflexivity|].
  rewrite PyStrFacts.append_cons. simpl. now rewrite IH, andb_assoc.
Qed.

Lemma all_bytes_join p l :
  all_bytes p (PyStr.join l) = forallb (all_bytes p) l.
Proof.
  induction l as [|c l IH]; [reflexivity|].
  rewrite PyStrFacts.join_cons, all_bytes_append, IH. reflexivity.
Qed.

(** Trimming keeps only bytes of the input. *)
Lemma all_bytes_strip p s :
  all_bytes p s = true -> all_bytes p (PyStr.strip s) = true.
Proof.
  rewrite <- (PyStrFacts.join_chars s) at 1. rewrite all_bytes_join.
  unfold PyStr.strip. rewrite all_bytes_join.
  destruct (PyStrFacts.lstrip_split (PyStr.chars s)) as (pre & Hpre & _).
  destruct (PyStrFacts.rstrip_split (PyStr.lstrip_chars (PyStr.chars s)))
    as (post & Hpost & _).
  rewrite Hpre at 1. rewrite Hpost at 1.
  rewrite !forallb_app. intros H.
  apply andb_true_iff in H as [_ H]. now apply andb_true_iff in H as [H _].
Qed.

Lemma lower_byte_ascii b :
  (PyStr.code b <? 128)%nat = true ->
  (PyStr.code (if (65 <=? PyStr.code b)%nat && (PyStr.code b <=? 90)%nat
               then ascii_of_nat (PyStr.code b + 32) else b) <? 128)%nat = true
  /\ PyStr.isupper
       (if (65 <=? PyStr.code b)%nat && (PyStr.code b <=? 90)%nat
        then ascii_of_nat (PyStr.code b + 32) else b) = false.
Proof.
  destruct b as [[] [] [] [] [] [] [] []]; vm_compute; intros H;
    first [discriminate H | split; reflexivity].
Qed.

Lemma ascii_lowercase_ascii s :
  is_ascii s = true ->
  is_ascii (ascii_lowercase s) = true /\
  all_bytes (fun b => negb (PyStr.isupper b)) (ascii_lowercase s) = true.
Proof.
  induction s as [|b s IH]; [split; reflexivity|].
  intros [Hb Hs]%andb_true_iff. destruct (IH Hs) as [IH1 IH2].
  destruct (lower_byte_ascii b Hb) as [H1 H2].
  unfold is_ascii. cbn [ascii_lowercase all_bytes].
  fold (is_ascii (ascii_lowercase s)).
  rewrite H1, H2, IH1, IH2. split; reflexivity.
Qed.

Lemma ascii_lowercase_fixed s :
  all_bytes (fun b => negb (PyStr.isupper b)) s = true ->
  ascii_lowercase s = s.
Proof.
  induction s as [|b s IH]; [reflexivity|].
  intros [Hb Hs]%andb_true_iff. cbn [ascii_lowercase]. rewrite (IH Hs).
  unfold PyStr.isupper in Hb. apply negb_true_iff in Hb. now rewrite Hb.
Qed.

(** Lower-casing a lower-cased, trimmed ASCII text changes nothing,
    whatever the case data says about the other characters. *)
Lemma lower_stable_on_ascii ucd e :
  is_ascii e = true ->
  PyStr.lower ucd (PyStr.strip (PyStr.lower ucd e)) =
  PyStr.strip (PyStr.lower ucd e).
Proof.
  intros He. rewrite (PyStrFacts.lower_ascii ucd e He).
  destruct (ascii_lowercase_ascii e He) as [Ha Hl].
  rewrite PyStrFacts.lower_ascii by (apply all_bytes_strip; exact Ha).
  apply ascii_lowercase_fixed, all_bytes_strip, Hl.
Qed.

(** ** The handlers see only the normalised request *)

(** X1: [signup] gives the same result and leaves the same state for a
    request and for the request whose name is already trimmed and whose
    email is already lower-cased and trimmed, for every ASCII email and,
    more generally, whenever lower-casing the normalised email a second time
    leaves it as it is: normalising twice is normalising once. *)
Theorem signup_of_normalised_request ucd ctx sp w :
  is_ascii (SignupPayload.email sp) = true \/
  PyStr.lower ucd (PyStr.strip (PyStr.lower ucd (SignupPayload.email sp))) =
    PyStr.strip (PyStr.lower ucd (SignupPayload.email sp)) ->
  signup ucd ctx (normalised ucd sp) w = signup ucd ctx sp w.
Proof.
  intros Hemail.
  assert (PyStr.lower ucd
            (PyStr.strip (PyStr.lower ucd (SignupPayload.email sp))) =
          PyStr.strip (PyStr.lower ucd (SignupPayload.email sp))) as Hstable.
  { destruct Hemail as [Hascii | H]; [|exact H].
    apply lower_stable_on_ascii, Hascii. }
  rewrite !signup_cases.
  unfold signup_query, signup_document, signup_response, normalised. simpl.
  now rewrite Hstable, !PyStrFacts.strip_idem.
Qed.

Lemma signup_of_normalised_request_witness :
  signup Demo.ucd Demo.context (normalised Demo.ucd Demo.padded)
    (Demo.world (Some Demo.empty_db)) =
  signup Demo.ucd Demo.context Demo.padded (Demo.world (Some Demo.empty_db)).
Proof.
  apply (signup_of_normalised_request Demo.ucd Demo.context Demo.padded
           (Demo.world (Some Demo.empty_db))).
  left. vm_compute. reflexivity.
Defined.

(** X2: [login] gives the same result and leaves the same state whether or
    not the name carries surrounding whitespace. *)
Theorem login_of_trimmed_request ctx lp w :
  login ctx (trimmed lp) w = login ctx lp w.
Proof.
  rewrite !login_cases. unfold login_query, trimmed. simpl.
  now rewrite !PyStrFacts.strip_idem.
Qed.

(** ** What [login] does and does not do *)

(** X3: whatever its outcome, [login] leaves the database, the environment
    and the random source as they were, inserts nothing and hashes nothing;
    it makes at most one lookup, followed by at most one verification. *)
Theorem login_is_read_only ctx lp w :
  db (snd (login ctx lp w)) = db w /\
  environ (snd (login ctx lp w)) = environ w /\
  urandom (snd (login ctx lp w)) = urandom w /\
  List.filter is_write_event (trace (snd (login ctx lp w))) =
    List.filter is_write_event (trace w) /\
  List.filter is_hash_event (trace (snd (login ctx lp w))) =
    List.filter is_hash_event (trace w) /\
  (trace (snd (login ctx lp w)) = trace w \/
   trace (snd (login ctx lp w)) =
     (trace w ++ [EvFindOne "account" (login_query lp)])%list \/
   exists h,
     trace (snd (login ctx lp w)) =
       (trace w ++ [EvFindOne "account" (login_query lp);
                    EvVerify (LoginPayload.password lp) h])%list).
Proof.
  rewrite login_cases. destruct (db w) as [d|] eqn:Hdb; simpl.
  2: { repeat split; auto. }
  destruct (find_fault d); simpl.
  { rewrite !filter_snoc by reflexivity. repeat split; auto. }
  destruct (find_first _ _) as [doc|]; simpl.
  2: { rewrite !filter_snoc by reflexivity. repeat split; auto. }
  destruct (verify_with _ _ _) as [e|[]]; simpl;
    rewrite !filter_snoc by reflexivity;
    repeat split; auto; right; right; eexists; now rewrite <- app_assoc.
Qed.

Lemma login_response_keys doc : dom (login_response doc) = profile_keys.
Proof.
  unfold login_response, profile, profile_keys.
  rewrite !dom_insert_L, dom_empty_L. set_solver.
Qed.

(** X4: [login] returns a body only if the account collection holds a
    document with the trimmed name whose stored hash the password context
    accepted for the given password; the body then has exactly the five
    profile fields and no password_hash. *)
Theorem login_success_needs_verified_password ctx lp w resp w' :
  login ctx lp w = (inr resp, w') ->
  exists d doc,
    db w = Some d /\
    In doc (collection (colls d) "account") /\
    doc !! "name" = Some (SStr (PyStr.strip (LoginPayload.name lp))) /\
    verify_with ctx (LoginPayload.password lp)
      (get_or doc "password_hash" (SStr "")) = inr true /\
    dom resp = profile_keys /\
    resp !! "password_hash" = None.
Proof.
  rewrite login_cases. destruct (db w) as [d|]; [|discriminate]. simpl.
  destruct (find_fault d); [discriminate|].
  destruct (find_first _ _) as [doc|] eqn:Hf; [|discriminate].
  destruct (verify_with _ _ _) as [e|[]] eqn:Hv; try discriminate.
  intros [= <- <-]. exists d, doc.
  apply find_some in Hf as [Hin Hm]. apply matches_field_eq in Hm.
  pose proof (login_response_keys doc) as Hdom.
  repeat split; auto.
Qed.

Lemma login_success_needs_verified_password_witness :
  exists doc,
    In doc (accounts Demo.registered) /\
    doc !! "name" = Some (SStr "alice") /\
    verify_with Demo.context "secret123"
      (get_or doc "password_hash" (SStr "")) = inr true.
Proof.
  destruct (login_success_needs_verified_password Demo.context
              Demo.alice_login Demo.registered
              (signup_response Demo.ucd Demo.empty_db Demo.alice)
              (snd (login Demo.context Demo.alice_login Demo.registered)))
    as (d & doc & Hdb & Hin & Hn & Hv & _).
  - vm_compute. reflexivity.
  - exists doc. unfold accounts.
    change (db Demo.registered) with
      (Some (insert_into Demo.empty_db "account"
               (signup_document Demo.ucd Demo.empty_db "ab" Demo.alice
                  (Demo.stored "ab" "secret123")))) in Hdb |- *.
    injection Hdb as <-. auto.
Defined.

(** X5: a successful [login] on a document that lacks fields still returns
    all five keys: a missing _id is rendered as the string "None", a missing
    name, email or avatar_url as null, a missing onboarded as false; a field
    the document has is returned as stored. *)
Theorem login_renders_missing_fields ctx lp w d doc resp w' :
  db w = Some d ->
  find_first (login_query lp) (collection (colls d) "account") = Some doc ->
  login ctx lp w = (inr resp, w') ->
  (doc !! "_id" = None -> resp !! "id" = Some (Atom (SStr "None"))) /\
  (forall k, k = "name" \/ k = "email" \/ k = "avatar_url" ->
     resp !! k = Some (Atom (default SNone (doc !! k)))) /\
  resp !! "onboarded" = Some (Atom (default (SBool false) (doc !! "onboarded"))).
Proof.
  intros Hdb Hf. rewrite login_cases, Hdb. simpl.
  destruct (find_fault d); [discriminate|]. rewrite Hf.
  destruct (verify_with _ _ _) as [e|[]]; try discriminate.
  intros [= <- <-]. unfold login_response, profile, get, get_or.
  split; [intros ->; simplify_map_eq; reflexivity|].
  split; [intros k [-> | [-> | ->]]; simplify_map_eq; reflexivity|].
  simplify_map_eq. reflexivity.
Qed.

Lemma login_renders_missing_fields_witness :
  (Demo.tokened_doc !! "_id" = None ->
   login_response Demo.tokened_doc !! "id" = Some (Atom (SStr "None"))) /\
  (forall k, k = "name" \/ k = "email" \/ k = "avatar_url" ->
     login_response Demo.tokened_doc !! k =
       Some (Atom (default SNone (Demo.tokened_doc !! k)))) /\
  login_response Demo.tokened_doc !! "onboarded" =
    Some (Atom (default (SBool false) (Demo.tokened_doc !! "onboarded"))).
Proof.
  apply (login_renders_missing_fields Demo.context Demo.carol_token
           (Demo.world (Some Demo.tokened_db)) Demo.tokened_db
           Demo.tokened_doc (login_response Demo.tokened_doc)
           (snd (login Demo.context Demo.carol_token
                   (Demo.world (Some Demo.tokened_db))))).
  - reflexivity.
  - vm_compute. reflexivity.
  - vm_compute. reflexivity.
Defined.

Lemma login_keeps_db ctx lp w : db (snd (login ctx lp w)) = db w.
Proof.
  rewrite login_cases. destruct (db w) as [d|] eqn:Hdb; simpl; [|exact Hdb].
  destruct (find_fault d); [exact Hdb|].
  destruct (find_first _ _); [|exact Hdb].
  destruct (verify_with _ _ _) as [e|[]]; exact Hdb.
Qed.

Lemma login_outcome_of_db ctx lp w1 w2 :
  db w1 = db w2 -> fst (login ctx lp w1) = fst (login ctx lp w2).
Proof.
  intros Hdb. rewrite !login_cases, Hdb.
  destruct (db w2) as [d|]; simpl; [|reflexivity].
  destruct (find_fault d); [reflexivity|].
  destruct (find_first _ _); [|reflexivity].
  destruct (verify_with _ _ _) as [e|[]]; reflexivity.
Qed.

Lemma test_database_keeps_db w : db (snd (test_database w)) = db w.
Proof.
  rewrite test_database_cases. destruct (db w) as [d|] eqn:Hdb; [|exact Hdb].
  destruct (name_escapes d); [exact Hdb|].
  unfold listed. destruct (list_fault d); simpl; exact Hdb.
Qed.

(** X6: the outcome of [login] depends on the database only: an earlier
    login (of anyone, successful or not) or an earlier probe does not change
    what a login answers. *)
Theorem login_is_repeatable ctx lp0 lp w :
  fst (login ctx lp (snd (login ctx lp0 w))) = fst (login ctx lp w) /\
  fst (login ctx lp (snd (test_database w))) = fst (login ctx lp w).
Proof.
  split; apply login_outcome_of_db.
  - apply login_keeps_db.
  - apply test_database_keeps_db.
Qed.

(** ** When the handlers refuse *)

(** X7: [signup] raises HTTP 400 only when the account collection really
    holds a document with the normalised name or the normalised email, and
    the detail is then the duplicate message. *)
Theorem signup_400_means_duplicate ucd ctx sp w detail :
  fst (signup ucd ctx sp w) = inl (HTTPException 400 detail) ->
  detail = "Account with this email or name already exists" /\
  exists doc,
    In doc (accounts w) /\
    (doc !! "email" =
       Some (SStr (PyStr.strip (PyStr.lower ucd (SignupPayload.email sp)))) \/
     doc !! "name" = Some (SStr (PyStr.strip (SignupPayload.name sp)))).
Proof.
  rewrite signup_cases. unfold accounts.
  destruct (db w) as [d|]; simpl; [|intros H; discriminate H].
  destruct (find_fault d); simpl; [intros H; discriminate H|].
  destruct (find_first _ _) as [doc|] eqn:Hf; simpl.
  - destruct (negb _); simpl.
    + intros [= <-]. split; [reflexivity|]. exists doc.
      apply find_some in Hf as [Hin Hm]. apply matches_taken in Hm. auto.
    + destruct (hash_with _ _ _); simpl; [intros H; discriminate H|].
      destruct (insert_fault d); intros H; discriminate H.
  - destruct (hash_with _ _ _); simpl; [intros H; discriminate H|].
    destruct (insert_fault d); intros H; discriminate H.
Qed.

Lemma signup_400_means_duplicate_witness :
  exists doc,
    In doc (accounts Demo.registered) /\
    (doc !! "email" = Some (SStr "alice@example.com") \/
     doc !! "name" = Some (SStr "bob")).
Proof.
  destruct (signup_400_means_duplicate Demo.ucd Demo.context Demo.bob Demo.registered
              "Account with this email or name already exists")
    as (_ & doc & Hin & Hm).
  - vm_compute. reflexivity.
  - exists doc. split; [exact Hin | exact Hm].
Defined.

(** X8: [login] raises HTTP 401 only with the detail "Invalid name or
    password", only when the database handle exists and the lookup returned,
    and only because no document has the trimmed name or because the
    password context returned false for the document found. *)
Theorem login_401_means_bad_credentials ctx lp w detail :
  fst (login ctx lp w) = inl (HTTPException 401 detail) ->
  detail = "Invalid name or password" /\
  exists d,
    db w = Some d /\ find_fault d = None /\
    ((forall doc, In doc (collection (colls d) "account") ->
        doc !! "name" <> Some (SStr (PyStr.strip (LoginPayload.name lp)))) \/
     (exists doc,
        find_first (login_query lp) (collection (colls d) "account") = Some doc /\
        verify_with ctx (LoginPayload.password lp)
          (get_or doc "password_hash" (SStr "")) = inr false)).
Proof.
  rewrite login_cases.
  destruct (db w) as [d|]; simpl; [|intros H; discriminate H].
  destruct (find_fault d) eqn:Hff; simpl; [intros H; discriminate H|].
  destruct (find_first _ _) as [doc|] eqn:Hf; simpl.
  - destruct (verify_with _ _ _) as [e|[]] eqn:Hv; simpl;
      intros H; try discriminate H.
    injection H as <-. split; [reflexivity|]. exists d.
    repeat split; auto. right. eauto.
  - intros [= <-]. split; [reflexivity|]. exists d.
    repeat split; auto. left. intros doc Hin Hn.
    eapply find_none in Hf; [|exact Hin].
    apply matches_field_eq in Hn. unfold login_query in Hf. congruence.
Qed.

Lemma login_401_means_bad_credentials_witness :
  exists doc,
    find_first (login_query Demo.wrong_password) (accounts Demo.registered) =
      Some doc /\
    verify_with Demo.context "guess"
      (get_or doc "password_hash" (SStr "")) = inr false.
Proof.
  destruct (login_401_means_bad_credentials Demo.context Demo.wrong_password
              Demo.registered "Invalid name or password")
    as (_ & d & Hdb & _ & [Hnone | (doc & Hf & Hv)]).
  - vm_compute. reflexivity.
  - exfalso.
    change (db Demo.registered) with
      (Some (insert_into Demo.empty_db "account"
               (signup_document Demo.ucd Demo.empty_db "ab" Demo.alice
                  (Demo.stored "ab" "secret123")))) in Hdb.
    injection Hdb as <-.
    apply (Hnone (signup_document Demo.ucd Demo.empty_db "ab" Demo.alice
                    (Demo.stored "ab" "secret123"))).
    + left. reflexivity.
    + vm_compute. reflexivity.
  - exists doc. unfold accounts.
    change (db Demo.registered) with
      (Some (insert_into Demo.empty_db "account"
               (signup_document Demo.ucd Demo.empty_db "ab" Demo.alice
                  (Demo.stored "ab" "secret123")))) in Hdb |- *.
    injection Hdb as <-. split; [exact Hf | exact Hv].
Defined.

(** X9: the status of [signup] is 200, 400 or 500 and never 401; the status
    of [login] is 200, 401 or 500 and never 400. *)
Theorem handler_status_codes ucd ctx sp lp w :
  (http_status (fst (signup ucd ctx sp w)) = 200 \/
   http_status (fst (signup ucd ctx sp w)) = 400 \/
   http_status (fst (signup ucd ctx sp w)) = 500) /\
  (http_status (fst (login ctx lp w)) = 200 \/
   http_status (fst (login ctx lp w)) = 401 \/
   http_status (fst (login ctx lp w)) = 500).
Proof.
  rewrite signup_cases, login_cases. destruct (db w) as [d|]; simpl; [|auto].
  destruct (find_fault d); simpl; [auto|]. split.
  - destruct (doc_truthy _); simpl; [auto|].
    destruct (hash_with _ _ _); simpl; [auto|].
    destruct (insert_fault d); simpl; auto.
  - destruct (find_first _ _); simpl; [|auto].
    destruct (verify_with _ _ _) as [e|[]]; simpl; auto.
Qed.

(** ** Sequences of signups *)

Lemma signup_state ucd ctx sp w :
  (exists e, fst (signup ucd ctx sp w) = inl e /\ db (snd (signup ucd ctx sp w)) = db w) \/
  (exists d h,
     db w = Some d /\ find_fault d = None /\
     find_first (signup_query ucd sp) (collection (colls d) "account") = None /\
     hash_with ctx (hd "" (urandom w)) (SignupPayload.password sp) = inr h /\
     fst (signup ucd ctx sp w) = inr (signup_response ucd d sp) /\
     db (snd (signup ucd ctx sp w)) =
       Some (insert_into d "account"
               (signup_document ucd d (hd "" (urandom w)) sp h))).
Proof.
  destruct (signup ucd ctx sp w) as [[e|resp] w'] eqn:Hs.
  - left. exists e. split; [reflexivity|]. simpl.
    rewrite signup_cases in Hs. destruct (db w) as [d|] eqn:Hdb; simpl in Hs.
    2: { now injection Hs as _ <-. }
    destruct (find_fault d); [now injection Hs as _ <-|].
    destruct (doc_truthy _); [now injection Hs as _ <-|].
    destruct (hash_with _ _ _); [now injection Hs as _ <-|].
    destruct (insert_fault d); [now injection Hs as _ <-|discriminate].
  - right. apply signup_success in Hs
      as (d & h & Hdb & Hff & _ & Hfree & Hh & -> & Hdb').
    exists d, h. simpl. auto 10.
Qed.

(** X10: once a [signup] has succeeded, a [signup] whose normalised name or
    whose normalised email is the same (whatever its password and the other
    field) is refused with HTTP 400 and leaves the database as it is. *)
Theorem second_signup_is_refused ucd ctx sp w resp w' sp2 :
  signup ucd ctx sp w = (inr resp, w') ->
  PyStr.strip (SignupPayload.name sp2) = PyStr.strip (SignupPayload.name sp) \/
  PyStr.strip (PyStr.lower ucd (SignupPayload.email sp2)) =
    PyStr.strip (PyStr.lower ucd (SignupPayload.email sp)) ->
  fst (signup ucd ctx sp2 w') =
    inl (HTTPException 400 "Account with this email or name already exists") /\
  db (snd (signup ucd ctx sp2 w')) = db w'.
Proof.
  intros Hs Hsame.
  apply signup_success in Hs as (d & h & Hdb & Hff & _ & _ & _ & _ & Hdb').
  destruct (signup_document_fields ucd d (hd "" (urandom w)) sp h)
    as (_ & Hn & He & _).
  set (doc := signup_document ucd d (hd "" (urandom w)) sp h) in *.
  assert (matches (signup_query ucd sp2) doc = true) as Hm.
  { apply matches_taken. destruct Hsame as [-> | ->]; auto. }
  assert (In doc (collection (colls (insert_into d "account" doc)) "account"))
    as Hin.
  { simpl. rewrite collection_append_doc. apply in_or_app. right. now left. }
  destruct (find_first_exists _ _ _ Hin Hm) as [doc' Hf].
  rewrite signup_cases, Hdb'. simpl. rewrite Hff.
  simpl in Hf. rewrite Hf. unfold signup_query in Hf.
  rewrite (found_taken_truthy _ _ _ _ Hf). simpl. split; [reflexivity|].
  exact Hdb'.
Qed.

Lemma second_signup_is_refused_witness :
  fst (signup Demo.ucd Demo.context Demo.bob Demo.registered) =
    inl (HTTPException 400 "Account with this email or name already exists").
Proof.
  destruct (second_signup_is_refused Demo.ucd Demo.context Demo.alice
              (Demo.world (Some Demo.empty_db))
              (signup_response Demo.ucd Demo.empty_db Demo.alice) Demo.registered
              Demo.bob) as [H _].
  - reflexivity.
  - right. vm_compute. reflexivity.
  - exact H.
Defined.

Lemma field_unique_snoc k (docs : list Doc) (doc : Doc) :
  field_unique k docs ->
  (forall d s, In d docs -> d !! k = Some (SStr s) -> doc !! k <> Some (SStr s)) ->
  field_unique k (docs ++ [doc])%list.
Proof.
  intros Hu Hfresh i j d1 d2 s H1 H2 Hk1 Hk2.
  apply lookup_app_Some in H1 as [H1 | [Hi H1]];
    apply lookup_app_Some in H2 as [H2 | [Hj H2]].
  - eapply Hu; eassumption.
  - apply list_lookup_singleton_Some in H2 as [_ <-].
    exfalso. eapply Hfresh; [|exact Hk1|exact Hk2].
    apply list_elem_of_In. eapply list_elem_of_lookup_2. exact H1.
  - apply list_lookup_singleton_Some in H1 as [_ <-].
    exfalso. eapply Hfresh; [|exact Hk2|exact Hk1].
    apply list_elem_of_In. eapply list_elem_of_lookup_2. exact H2.
  - apply list_lookup_singleton_Some in H1 as [H1 _].
    apply list_lookup_singleton_Some in H2 as [H2 _]. lia.
Qed.

(** X11: if no two account documents share a name and no two share an
    email, the same holds after any [signup], whatever its outcome: run one
    after the other, signups keep names and emails unique. *)
Theorem signup_keeps_accounts_unique ucd ctx sp w :
  field_unique "name" (accounts w) ->
  field_unique "email" (accounts w) ->
  field_unique "name" (accounts (snd (signup ucd ctx sp w))) /\
  field_unique "email" (accounts (snd (signup ucd ctx sp w))).
Proof.
  intros Hn He. unfold accounts in *.
  destruct (signup_state ucd ctx sp w)
    as [(e & _ & ->) | (d & h & Hdb & _ & Hfree & _ & _ & ->)]; [auto|].
  rewrite Hdb in Hn, He. simpl. rewrite collection_append_doc.
  destruct (signup_document_fields ucd d (hd "" (urandom w)) sp h)
    as (_ & Hdn & Hde & _).
  split; apply field_unique_snoc; auto; intros d1 s Hin Hk Hdoc.
  - rewrite Hdn in Hdoc. injection Hdoc as <-.
    eapply find_none in Hfree; [|exact Hin].
    assert (matches (signup_query ucd sp) d1 = true) as Hm
      by (apply matches_taken; auto).
    congruence.
  - rewrite Hde in Hdoc. injection Hdoc as <-.
    eapply find_none in Hfree; [|exact Hin].
    assert (matches (signup_query ucd sp) d1 = true) as Hm
      by (apply matches_taken; auto).
    congruence.
Qed.

Lemma signup_keeps_accounts_unique_witness :
  length (accounts (snd (signup Demo.ucd Demo.context Demo.dave
                           Demo.registered))) = 2%nat /\
  field_unique "name"
    (accounts (snd (signup Demo.ucd Demo.context Demo.dave Demo.registered))) /\
  field_unique "email"
    (accounts (snd (signup Demo.ucd Demo.context Demo.dave Demo.registered))).
Proof.
  split; [vm_compute; reflexivity|].
  assert (forall i (d : Doc),
            accounts Demo.registered !! i = Some d -> i = 0%nat) as Hone.
  { intros i d H. apply lookup_lt_Some in H.
    assert (length (accounts Demo.registered) = 1%nat) as E
      by (vm_compute; reflexivity).
    rewrite E in H. destruct i as [|i]; [reflexivity|].
    exfalso. apply (Nat.nlt_0_r i). apply PeanoNat.lt_S_n. exact H. }
  apply (signup_keeps_accounts_unique Demo.ucd Demo.context Demo.dave
           Demo.registered).
  - intros i j d1 d2 s0 H1 H2 _ _.
    rewrite (Hone i d1 H1), (Hone j d2 H2). reflexivity.
  - intros i j d1 d2 s0 H1 H2 _ _.
    rewrite (Hone i d1 H1), (Hone j d2 H2). reflexivity.
Defined.

(** X12: [signup] does not reject a blank name: when the name is empty or
    made of whitespace only and the signup succeeds, the account is created
    under the empty name. *)
Theorem blank_name_is_accepted ucd ctx sp w resp w' :
  all_space (SignupPayload.name sp) = true ->
  signup ucd ctx sp w = (inr resp, w') ->
  resp !! "name" = Some (Atom (SStr "")) /\
  exists doc, In doc (accounts w') /\ doc !! "name" = Some (SStr "").
Proof.
  intros Hblank Hs.
  apply signup_success in Hs as (d & h & _ & _ & _ & _ & _ & -> & Hdb').
  destruct (signup_response_fields ucd d sp) as (_ & _ & Hn & _).
  destruct (signup_document_fields ucd d (hd "" (urandom w)) sp h)
    as (_ & Hdn & _).
  rewrite (PyStrFacts.strip_all_space _ Hblank) in Hn, Hdn.
  split; [exact Hn|].
  exists (signup_document ucd d (hd "" (urandom w)) sp h).
  split; [|exact Hdn].
  unfold accounts. rewrite Hdb'. simpl. rewrite collection_append_doc.
  apply in_or_app. right. now left.
Qed.

Lemma blank_name_is_accepted_witness :
  exists resp,
    fst (signup Demo.ucd Demo.context Demo.blank (Demo.world (Some Demo.empty_db))) =
      inr resp /\
    resp !! "name" = Some (Atom (SStr "")).
Proof.
  exists (signup_response Demo.ucd Demo.empty_db Demo.blank).
  split; [reflexivity|].
  apply (blank_name_is_accepted Demo.ucd Demo.context Demo.blank
           (Demo.world (Some Demo.empty_db))
           (signup_response Demo.ucd Demo.empty_db Demo.blank)
           (snd (signup Demo.ucd Demo.context Demo.blank
                   (Demo.world (Some Demo.empty_db))))).
  - reflexivity.
  - reflexivity.
Defined.


(** ** More on the probe *)

Lemma snoc_neq {A} (l : list A) (x : A) : (l ++ [x])%list <> l.
Proof.
  intros H. apply (f_equal (@length A)) in H.
  rewrite length_app in H. simpl in H. lia.
Qed.

(** The state the probe leaves: the one it found, with the listing call
    recorded when it was made. *)
Lemma test_database_state w :
  snd (test_database w) =
  match db w with
  | Some d =>
      match name_escapes d with
      | Some _ => w
      | None => log EvListCollectionNames w
      end
  | None => w
  end.
Proof.
  rewrite test_database_cases. destruct (db w) as [d|]; [|reflexivity].
  destruct (name_escapes d); [reflexivity|].
  unfold listed. destruct (list_fault d); reflexivity.
Qed.

(** A handle whose [name] lookup raises AttributeError is treated as a
    handle without that attribute: the probe goes on to the listing. *)
Example probe_with_nameless_handle :
  exists resp,
    fst (test_database (Demo.world (Some Demo.nameless_db))) = inr resp /\
    resp !! "connection_status" = Some (Atom (SStr "Connected")) /\
    resp !! "database" = Some (Atom (SStr "✅ Connected & Working")) /\
    resp !! "collections" = Some (VList ["account"; "session"]).
Proof.
  eexists. split; [reflexivity|]. repeat split; vm_compute; reflexivity.
Qed.

(** X13: the probe changes nothing: database, environment and random source
    are as before; it makes no lookup, insertion, hashing or verification,
    and calls the listing once exactly when the handle exists and
    [hasattr(db, 'name')] lets no exception through (an AttributeError of
    the lookup counts as an absent attribute). *)
Theorem probe_is_read_only w :
  db (snd (test_database w)) = db w /\
  environ (snd (test_database w)) = environ w /\
  urandom (snd (test_database w)) = urandom w /\
  (trace (snd (test_database w)) = trace w \/
   trace (snd (test_database w)) = (trace w ++ [EvListCollectionNames])%list) /\
  (trace (snd (test_database w)) = (trace w ++ [EvListCollectionNames])%list <->
   exists d, db w = Some d /\ name_escapes d = None).
Proof.
  rewrite test_database_state. destruct (db w) as [d|] eqn:Hdb.
  - destruct (name_escapes d) as [e|] eqn:Hesc; simpl.
    + repeat split; auto.
      * intros H. symmetry in H. now apply snoc_neq in H.
      * intros (d' & [= <-] & Hno). congruence.
    + repeat split; auto. intros _. exists d. split; [reflexivity | exact Hesc].
  - repeat split; auto.
    + intros H. symmetry in H. now apply snoc_neq in H.
    + intros (d' & Hd' & _). discriminate Hd'.
Qed.

(** X14: the probe reports connection_status "Connected" exactly when the
    handle exists and [hasattr(db, 'name')] lets no exception through, and
    "Not Connected" otherwise; it reports database "Connected & Working"
    exactly when, in addition, the listing did not raise; and it never
    reports the database value "Not Available" the response starts with. *)
Theorem probe_connection_report w :
  exists resp,
    fst (test_database w) = inr resp /\
    (resp !! "connection_status" = Some (Atom (SStr "Connected")) <->
     exists d, db w = Some d /\ name_escapes d = None) /\
    (resp !! "connection_status" = Some (Atom (SStr "Connected")) \/
     resp !! "connection_status" = Some (Atom (SStr "Not Connected"))) /\
    (resp !! "database" = Some (Atom (SStr "✅ Connected & Working")) <->
     exists d, db w = Some d /\ name_escapes d = None /\
               list_fault d = None) /\
    resp !! "database" <> Some (Atom (SStr "❌ Not Available")).
Proof.
  rewrite test_database_cases. destruct (db w) as [d|] eqn:Hdb.
  - destruct (name_escapes d) as [e|] eqn:Hesc;
      [|generalize (name_shown d); intros nm; unfold listed;
        destruct (list_fault d) as [e'|] eqn:Hlf]; simpl;
      eexists; (split; [reflexivity|]);
      unfold env_flags, connected, initial_response; simplify_map_eq.
    + split; [split; [intros H; discriminate H
                     | intros (d' & [= <-] & Hno); congruence]|].
      split; [now right|].
      split; [split; [intros H; discriminate H
                     | intros (d' & [= <-] & Hno & _); congruence]|].
      intros H; discriminate H.
    + split; [split; [intros _; exists d; split; [reflexivity|exact Hesc]
                     | reflexivity]|].
      split; [now left|].
      split; [split; [intros H; discriminate H
                     | intros (d' & [= <-] & _ & Hl); congruence]|].
      intros H; discriminate H.
    + split; [split; [intros _; exists d; split; [reflexivity|exact Hesc]
                     | reflexivity]|].
      split; [now left|].
      split; [split; [intros _; exists d; repeat split; [exact Hesc|exact Hlf]
                     | reflexivity]|].
      intros H; discriminate H.
  - simpl. eexists. split; [reflexivity|].
    unfold env_flags, initial_response. simplify_map_eq.
    split; [split; [intros H; discriminate H
                   | intros (d' & Hd' & _); discriminate Hd']|].
    split; [now right|].
    split; [split; [intros H; discriminate H
                   | intros (d' & Hd' & _); discriminate Hd']|].
    intros H; discriminate H.
Qed.

(** X15: when [hasattr(db, 'name')] lets an exception through, or the
    listing raises, the probe shows the first 50 characters of the
    exception text behind a fixed prefix (the whole text when it has at most
    50 characters), reports no collections, and keeps connection_status
    "Not Connected" in the first case and "Connected" in the second. *)
Theorem probe_cuts_error_text w d e :
  db w = Some d ->
  exists resp,
    fst (test_database w) = inr resp /\
    (name_escapes d = Some e ->
     resp !! "database" =
       Some (Atom (SStr ("❌ Error: " +:+ PyStr.slice_to 50 (exc_str e)))) /\
     resp !! "connection_status" = Some (Atom (SStr "Not Connected")) /\
     resp !! "collections" = Some (VList [])) /\
    (name_escapes d = None -> list_fault d = Some e ->
     resp !! "database" =
       Some (Atom (SStr ("⚠️  Connected but Error: "
                         +:+ PyStr.slice_to 50 (exc_str e)))) /\
     resp !! "connection_status" = Some (Atom (SStr "Connected")) /\
     resp !! "collections" = Some (VList [])) /\
    PyStr.chars (PyStr.slice_to 50 (exc_str e)) =
      take 50 (PyStr.chars (exc_str e)) /\
    (length (PyStr.chars (PyStr.slice_to 50 (exc_str e))) <= 50)%nat /\
    ((length (PyStr.chars (exc_str e)) <= 50)%nat ->
     PyStr.slice_to 50 (exc_str e) = exc_str e).
Proof.
  intros Hdb. rewrite test_database_cases, Hdb.
  destruct (name_escapes d) as [e0|] eqn:Hesc;
    [|generalize (name_shown d); intros nm; unfold listed;
      destruct (list_fault d) as [e'|] eqn:Hlf]; simpl;
    eexists; (split; [reflexivity|]);
    unfold env_flags, connected, initial_response; simplify_map_eq.
  all: split;
    [ first [ intros H; discriminate H
            | intros [= <-]; repeat split; reflexivity ] |].
  all: split;
    [ first [ intros H; discriminate H
            | intros _ H; discriminate H
            | intros _ [= <-]; repeat split; reflexivity ] |].
  all: split; [apply PyStrFacts.chars_slice_to|].
  all: split; [apply PyStrFacts.slice_to_length | apply PyStrFacts.slice_to_short].
Qed.

Lemma probe_cuts_error_text_witness :
  exists resp,
    fst (test_database (Demo.world (Some Demo.injoignable_db))) = inr resp /\
    resp !! "database" =
      Some (Atom (SStr ("⚠️  Connected but Error: "
                        +:+ "Connexion refusée par le serveur localhost:27017 a"))).
Proof.
  destruct (probe_cuts_error_text (Demo.world (Some Demo.injoignable_db))
              Demo.injoignable_db Demo.refusee)
    as (resp & Hr & _ & Hl & _).
  - reflexivity.
  - exists resp. split; [exact Hr|].
    destruct Hl as (Hd & _).
    + reflexivity.
    + reflexivity.
    + rewrite Hd. vm_compute. reflexivity.
Defined.

(** X16: the probe reports the first ten collection names in the order the
    server lists them, all of them when there are at most ten, and it
    reports any name only when the handle exists, [hasattr(db, 'name')] lets
    no exception through and the listing did not raise; whenever the
    database is not reported as working the list is empty. *)
Theorem probe_lists_first_ten w :
  exists resp names,
    fst (test_database w) = inr resp /\
    resp !! "collections" = Some (VList names) /\
    (forall d, db w = Some d -> name_escapes d = None ->
       list_fault d = None ->
       names = take 10 (map fst (colls d)) /\
       ((length (colls d) <= 10)%nat -> names = map fst (colls d))) /\
    (names <> [] ->
     exists d, db w = Some d /\ name_escapes d = None /\
               list_fault d = None) /\
    (resp !! "database" <> Some (Atom (SStr "✅ Connected & Working")) ->
     names = []).
Proof.
  assert (forall d : Database, (length (colls d) <= 10)%nat ->
            take 10 (map fst (colls d)) = map fst (colls d)) as Hall.
  { intros d Hlen. apply take_ge. rewrite length_map. exact Hlen. }
  rewrite test_database_cases. destruct (db w) as [d|] eqn:Hdb.
  - destruct (name_escapes d) as [e0|] eqn:Hesc;
      [|generalize (name_shown d); intros nm; unfold listed;
        destruct (list_fault d) as [e'|] eqn:Hlf]; simpl;
      eexists _, _; (split; [reflexivity|]);
      unfold env_flags, connected, initial_response;
      (split; [simplify_map_eq; reflexivity|]).
    all: split;
      [ intros d' [= <-] Hno Hl;
        first [ congruence | split; [reflexivity | apply Hall] ] |].
    all: split;
      [ intros Hne;
        first [ now contradiction Hne
              | exists d; repeat split; assumption ] |].
    all: simplify_map_eq.
    all: intros H; first [reflexivity | exfalso; apply H; reflexivity].
  - simpl. eexists _, _. split; [reflexivity|].
    unfold env_flags, initial_response.
    split; [simplify_map_eq; reflexivity|].
    split; [intros d' Hd'; discriminate Hd'|].
    split; [intros Hne; now contradiction Hne|].
    reflexivity.
Qed.

(** ** What [signup] leaves behind, and what stops it *)

(** X17: a successful [signup] made one lookup, then hashed the password
    once, then inserted one document, in that order; the document is the
    last of the account collection, has the fields _id, name, email,
    password_hash, avatar_url and onboarded and no password field, holds the
    output of the password context as password_hash, and carries the
    identifier whose string the response returns. *)
Theorem signup_stores_the_hash ucd ctx sp w resp w' :
  signup ucd ctx sp w = (inr resp, w') ->
  exists h doc,
    hash_with ctx (hd "" (urandom w)) (SignupPayload.password sp) = inr h /\
    accounts w' = (accounts w ++ [doc])%list /\
    dom doc = ({[ "_id"; "name"; "email"; "password_hash"; "avatar_url";
                  "onboarded" ]} : gset string) /\
    doc !! "password_hash" = Some (SStr h) /\
    doc !! "password" = None /\
    doc !! "onboarded" = Some (SBool false) /\
    resp !! "id" = Some (Atom (SStr (py_str (get doc "_id")))) /\
    trace w' =
      (trace w ++ [EvFindOne "account" (signup_query ucd sp);
                   EvHash (SignupPayload.password sp);
                   EvInsertOne "account" doc])%list.
Proof.
  rewrite signup_cases. unfold accounts.
  destruct (db w) as [d|] eqn:Hdb; [|discriminate]. simpl.
  destruct (find_fault d); [discriminate|].
  destruct (doc_truthy _); [discriminate|].
  destruct (hash_with _ _ _) as [e|h] eqn:Hh; [discriminate|].
  destruct (insert_fault d); [discriminate|].
  intros [= <- <-]. exists h, (signup_document ucd d (hd "" (urandom w)) sp h).
  destruct (signup_document_fields ucd d (hd "" (urandom w)) sp h)
    as (Hid & _ & _ & Hph & _ & Ho).
  destruct (signup_response_fields ucd d sp) as (_ & Hrid & _).
  split; [reflexivity|]. simpl. split; [apply collection_append_doc|].
  split.
  { unfold signup_document, model_dump.
    rewrite !dom_insert_L, dom_empty_L. set_solver. }
  split; [exact Hph|].
  split.
  { unfold signup_document, model_dump. simplify_map_eq. reflexivity. }
  split; [exact Ho|].
  split.
  { unfold get. rewrite Hid. exact Hrid. }
  rewrite <- !app_assoc. reflexivity.
Qed.

Lemma signup_stores_the_hash_witness :
  exists doc,
    accounts Demo.registered = [doc] /\
    doc !! "password_hash" = Some (SStr (Demo.stored "ab" "secret123")) /\
    doc !! "password" = None.
Proof.
  destruct (signup_stores_the_hash Demo.ucd Demo.context Demo.alice
              (Demo.world (Some Demo.empty_db))
              (signup_response Demo.ucd Demo.empty_db Demo.alice) Demo.registered)
    as (h & doc & Hh & Hacc & _ & Hph & Hp & _).
  - reflexivity.
  - injection Hh as <-. exists doc. split; [exact Hacc|].
    split; [exact Hph | exact Hp].
Defined.

(** X18: neither handler catches an exception of the lookup: when
    [find_one] raises, [signup] and [login] raise that exception unhandled
    (HTTP 500), after the one lookup and nothing else: no hashing, no
    verification, no insertion, and the database is as before. *)
Theorem lookup_failure_is_not_caught ucd ctx sp lp w d e :
  db w = Some d -> find_fault d = Some e ->
  signup ucd ctx sp w =
    (inl (Unhandled e), log (EvFindOne "account" (signup_query ucd sp)) w) /\
  login ctx lp w =
    (inl (Unhandled e), log (EvFindOne "account" (login_query lp)) w) /\
  http_status (fst (signup ucd ctx sp w)) = 500 /\
  http_status (fst (login ctx lp w)) = 500.
Proof.
  intros Hdb Hff. rewrite signup_cases, login_cases, Hdb. simpl.
  rewrite Hff. repeat split.
Qed.

Lemma lookup_failure_is_not_caught_witness :
  fst (signup Demo.ucd Demo.context Demo.alice (Demo.world (Some Demo.unreachable_db))) =
    inl (Unhandled Demo.refused) /\
  fst (login Demo.context Demo.alice_login
         (Demo.world (Some Demo.unreachable_db))) =
    inl (Unhandled Demo.refused).
Proof.
  destruct (lookup_failure_is_not_caught Demo.ucd Demo.context Demo.alice
              Demo.alice_login (Demo.world (Some Demo.unreachable_db))
              Demo.unreachable_db Demo.refused) as (Hs & Hl & _).
  - reflexivity.
  - reflexivity.
  - rewrite Hs, Hl. split; reflexivity.
Defined.

(** X19: when the name and the email are free but hashing the password
    raises, [signup] raises that exception unhandled (HTTP 500) and creates
    no account: no insertion is attempted and the database is as before. *)
Theorem hashing_failure_creates_nothing ucd ctx sp w d e :
  db w = Some d -> find_fault d = None ->
  find_first (signup_query ucd sp) (collection (colls d) "account") = None ->
  hash_with ctx (hd "" (urandom w)) (SignupPayload.password sp) = inl e ->
  fst (signup ucd ctx sp w) = inl (Unhandled e) /\
  http_status (fst (signup ucd ctx sp w)) = 500 /\
  db (snd (signup ucd ctx sp w)) = db w /\
  List.filter is_write_event (trace (snd (signup ucd ctx sp w))) =
    List.filter is_write_event (trace w).
Proof.
  intros Hdb Hff Hfree Hh. rewrite signup_cases, Hdb. simpl.
  rewrite Hff, Hfree. simpl. rewrite Hh. simpl.
  rewrite !filter_snoc by reflexivity. repeat split. exact Hdb.
Qed.

Lemma hashing_failure_creates_nothing_witness :
  fst (signup Demo.ucd Demo.strict_context Demo.blank (Demo.world (Some Demo.empty_db))) =
    inl (Unhandled Demo.too_short) /\
  db (snd (signup Demo.ucd Demo.strict_context Demo.blank
             (Demo.world (Some Demo.empty_db)))) = Some Demo.empty_db.
Proof.
  destruct (hashing_failure_creates_nothing Demo.ucd Demo.strict_context Demo.blank
              (Demo.world (Some Demo.empty_db)) Demo.empty_db Demo.too_short)
    as (Hs & _ & Hdb & _).
  - reflexivity.
  - reflexivity.
  - reflexivity.
  - reflexivity.
  - split; [exact Hs | exact Hdb].
Defined.
